(** * Reservation guard scripts of [mcp_agent_mail/guard.py]

    A shallow embedding of the two boundary scripts that [guard.py]
    spells out line by line ([render_precommit_script],
    [render_prepush_script]) and of the two rendering functions
    themselves.

    Python text is modelled by [string] (ASCII text: one [ascii] per
    character).  Everything the scripts read from outside (environment,
    arguments, standard input, clock, the version-control tool, the
    reservation directory) is a field of a read-only [World]; what a run
    does to the outside is recorded as a list of [event]s next to the
    way the process ends.  *)

From Stdlib Require Import String Ascii List ZArith QArith Bool Lia.
Import ListNotations.
Open Scope string_scope.
Open Scope Z_scope.

Set Warnings "-register-all".

(** ** Python string methods used by the scripts *)

Module PyStr.

Definition NUL : ascii := "000"%char.
Definition LF : ascii := "010"%char.
Definition CR : ascii := "013"%char.
Definition DQUOTE : ascii := "034"%char.
Definition BACKSLASH : ascii := "092"%char.

Definition nl : string := String LF EmptyString.

(** [str.isspace] on an ASCII character: TAB..CR, FS..US and the space. *)
Definition isspace (c : ascii) : bool :=
  let n := nat_of_ascii c in
  ((9 <=? n)%nat && (n <=? 13)%nat) || ((28 <=? n)%nat && (n <=? 32)%nat).

(** Line boundaries of [str.splitlines] (ASCII ones). *)
Definition islinebreak (c : ascii) : bool :=
  let n := nat_of_ascii c in
  ((10 <=? n)%nat && (n <=? 13)%nat) || ((28 <=? n)%nat && (n <=? 30)%nat).

Definition nonempty (s : string) : bool :=
  match s with EmptyString => false | String _ _ => true end.

Fixpoint lstrip (s : string) : string :=
  match s with
  | EmptyString => EmptyString
  | String c r => if isspace c then lstrip r else s
  end.

Definition rev (s : string) : string :=
  string_of_list_ascii (List.rev (list_ascii_of_string s)).

Definition rstrip (s : string) : string := rev (lstrip (rev s)).

(** [s.strip()] *)
Definition strip (s : string) : string := rstrip (lstrip s).

Definition lower_char (c : ascii) : ascii :=
  let n := nat_of_ascii c in
  if ((65 <=? n)%nat && (n <=? 90)%nat)%bool then ascii_of_nat (n + 32) else c.

(** [s.lower()] *)
Fixpoint lower (s : string) : string :=
  match s with
  | EmptyString => EmptyString
  | String c r => String (lower_char c) (lower r)
  end.

(** [s.split(sep)] for a one-character separator: empty pieces are kept. *)
Fixpoint split_char (sep : ascii) (s : string) : list string :=
  match s with
  | EmptyString => [EmptyString]
  | String c r =>
      if Ascii.eqb c sep then EmptyString :: split_char sep r
      else match split_char sep r with
           | x :: xs => String c x :: xs
           | [] => [String c EmptyString]
           end
  end.

(** [[p for p in s.split("\x00") if p]] *)
Definition nul_fields (s : string) : list string :=
  filter nonempty (split_char NUL s).

Definition flush (cur : list ascii) : list string :=
  match cur with
  | [] => []
  | _ => [string_of_list_ascii (List.rev cur)]
  end.

(** [s.split()]: maximal runs of non-space characters. *)
Fixpoint split_ws_from (cur : list ascii) (s : string) : list string :=
  match s with
  | EmptyString => flush cur
  | String c r =>
      if isspace c then flush cur ++ split_ws_from [] r
      else split_ws_from (c :: cur) r
  end.

Definition split_ws (s : string) : list string := split_ws_from [] s.

(** [s.splitlines()]: CR LF counts once, no empty piece after a final
    line break. *)
Fixpoint splitlines_from (cur : list ascii) (s : string) : list string :=
  match s with
  | EmptyString => flush cur
  | String c r =>
      if Ascii.eqb c CR then
        match r with
        | String c' r' =>
            if Ascii.eqb c' LF
            then string_of_list_ascii (List.rev cur) :: splitlines_from [] r'
            else string_of_list_ascii (List.rev cur) :: splitlines_from [] r
        | EmptyString => [string_of_list_ascii (List.rev cur)]
        end
      else if islinebreak c
      then string_of_list_ascii (List.rev cur) :: splitlines_from [] r
      else splitlines_from (c :: cur) r
  end.

Definition splitlines (s : string) : list string := splitlines_from [] s.

(** [s.startswith(p)] *)
Definition startswith (p s : string) : bool := String.prefix p s.

(** [s.replace("\\", "/")] *)
Fixpoint backslash_to_slash (s : string) : string :=
  match s with
  | EmptyString => EmptyString
  | String c r =>
      String (if Ascii.eqb c BACKSLASH then "/"%char else c) (backslash_to_slash r)
  end.

(** [s.lstrip("/")] *)
Fixpoint lstrip_slash (s : string) : string :=
  match s with
  | EmptyString => EmptyString
  | String c r => if Ascii.eqb c "/"%char then lstrip_slash r else s
  end.

(** [set(s) == {"0"}] *)
Definition only_zeros (s : string) : bool :=
  nonempty s && forallb (Ascii.eqb "0"%char) (list_ascii_of_string s).

(** [s in xs] for a set or list of strings *)
Definition mem (s : string) (xs : list string) : bool :=
  existsb (String.eqb s) xs.

(** ["\n".join(xs)] *)
Fixpoint join_lines (xs : list string) : string :=
  match xs with
  | [] => EmptyString
  | [x] => x
  | x :: rest => x ++ nl ++ join_lines rest
  end.

(** The line literals of the scripts hold many double quotes; they are
    written below with a backquote in place of each one, and [q] puts
    the double quotes back. *)
Fixpoint q (s : string) : string :=
  match s with
  | EmptyString => EmptyString
  | String c r => String (if Ascii.eqb c "`"%char then DQUOTE else c) (q r)
  end.

End PyStr.
Import PyStr.

(** ** Values, exceptions and library functions *)

(** What [json.loads] returns.  A [JObj] lists the items of the dict
    (keys are distinct in a dict; [dict_get] takes the first binding).
    [JFloat] stands for a finite float. *)
#[local] Unset Elimination Schemes.

Inductive json : Type :=
| JNull
| JBool (b : bool)
| JInt (z : Z)
| JFloat (x : Q)
| JStr (s : string)
| JArr (l : list json)
| JObj (items : list (string * json)).

#[local] Set Elimination Schemes.

Inductive exn : Type := TypeError | AttributeError.

(** Result of an expression that may raise. *)
Inductive res (A : Type) : Type :=
| Ok (a : A)
| Raise (e : exn).
Arguments Ok {A} a.
Arguments Raise {A} e.

Definition res_bind {A B} (r : res A) (f : A -> res B) : res B :=
  match r with
  | Ok a => f a
  | Raise e => Raise e
  end.

(** Python truth value of a JSON value ([if v:], [not v], [v or d]). *)
Definition truthy (v : json) : bool :=
  match v with
  | JNull => false
  | JBool b => b
  | JInt z => negb (z =? 0)
  | JFloat x => negb (Qnum x =? 0)
  | JStr s => nonempty s
  | JArr l => match l with [] => false | _ => true end
  | JObj items => match items with [] => false | _ => true end
  end.

Fixpoint assoc (k : string) (items : list (string * json)) : option json :=
  match items with
  | [] => None
  | (k', v) :: rest => if String.eqb k k' then Some v else assoc k rest
  end.

(** [d.get(k, default)]; only a dict has [get]. *)
Definition dict_get_default (d : json) (k : string) (default : json) : res json :=
  match d with
  | JObj items => Ok match assoc k items with Some v => v | None => default end
  | _ => Raise AttributeError
  end.

(** [d.get(k)]: the default is [None]. *)
Definition dict_get (d : json) (k : string) : res json :=
  dict_get_default d k JNull.

(** [v == s] for a string [s]. *)
Definition eq_str (v : json) (s : string) : bool :=
  match v with
  | JStr s' => String.eqb s' s
  | _ => false
  end.

(** A [datetime]: naive (no offset) or aware; [t] counts microseconds,
    for an aware value from the epoch in UTC. *)
Inductive datetime : Type :=
| Naive (t : Z)
| Aware (t : Z).

(** [a < b] on datetimes: comparing a naive with an aware one raises
    [TypeError]. *)
Definition dt_lt (a b : datetime) : res bool :=
  match a, b with
  | Aware x, Aware y => Ok (x <? y)
  | Naive x, Naive y => Ok (x <? y)
  | _, _ => Raise TypeError
  end.

(** The standard-library functions the scripts call on strings.
    [fromisoformat] gives [None] where Python raises [ValueError]. *)
Record PyLib : Type := {
  fnmatch : string -> string -> bool;
  fnmatchcase : string -> string -> bool;
  fromisoformat : string -> option datetime
}.

(** ** The world a script runs in, and what a run leaves behind *)

(** One entry of the reservation directory: its name and what
    [json.loads(candidate.read_text())] gives, [None] when either call
    raises (unreadable file, text that is not JSON). *)
Definition dir_entry : Type := (string * option json)%type.

Record World : Type := {
  environ : string -> option string;      (* os.environ.get *)
  argv : list string;                     (* sys.argv *)
  stdin : string;                         (* sys.stdin.read() *)
  now : Z;                                (* datetime.now(timezone.utc) *)
  git : list string -> option string;     (* stdout of a run, None when it fails *)
  reservations : option (list dir_entry)  (* None: the directory is absent *)
}.

(** A conflict triple: path, holder ([file_reservation.get("agent")]),
    pattern. *)
Definition conflict : Type := (string * json * string)%type.

Inductive event : Type :=
| Stderr (text : string)            (* sys.stderr.write of a fixed text *)
| StderrConflict (c : conflict)     (* the "  - path matches ..." line *)
| GitRun (args : list string)       (* subprocess.run(["git", ...]) *)
| DirExists                         (* FILE_RESERVATIONS_DIR.exists() *)
| DirGlob                           (* FILE_RESERVATIONS_DIR.glob("*.json") *)
| ReadText (name : string)          (* candidate.read_text() *)
| ReadStdin.                        (* sys.stdin.read() *)

(** How the process ends: [sys.exit(code)] or an exception nobody
    catches (the interpreter then prints a traceback and the exit status
    is 1). *)
Inductive outcome : Type :=
| Exit (code : Z)
| Uncaught (e : exn).

Definition exit_status (o : outcome) : Z :=
  match o with
  | Exit code => code
  | Uncaught _ => 1
  end.

(** A step of a script: the events it performs, and either a value to go
    on with or the end of the process. *)
Inductive step (A : Type) : Type :=
| Next (a : A)
| Halt (o : outcome).
Arguments Next {A} a.
Arguments Halt {A} o.

Definition script (A : Type) : Type := (list event * step A)%type.

Definition ret {A} (a : A) : script A := ([], Next a).

Definition bind {A B} (m : script A) (f : A -> script B) : script B :=
  match m with
  | (t, Next a) => let (t', r) := f a in ((t ++ t')%list, r)
  | (t, Halt o) => (t, Halt o)
  end.

Definition emit (e : event) : script unit := ([e], Next tt).
Definition sys_exit {A} (code : Z) : script A := ([], Halt (Exit code)).
Definition uncaught {A} (e : exn) : script A := ([], Halt (Uncaught e)).

(** A raising expression outside every [try]. *)
Definition lift {A} (r : res A) : script A :=
  match r with
  | Ok a => ret a
  | Raise e => uncaught e
  end.

Declare Scope script_scope.
Delimit Scope script_scope with script.
Notation "x <- m ;; k" := (bind m (fun x => k))
  (at level 61, m at next level, right associativity) : script_scope.
Notation "m ;;; k" := (bind m (fun _ => k))
  (at level 61, right associativity) : script_scope.
Open Scope script_scope.

(** A whole script always ends the process. *)
Definition run : Type := (list event * outcome)%type.

Definition finish (m : script Empty_set) : run :=
  match m with
  | (t, Next a) => match a with end
  | (t, Halt o) => (t, o)
  end.

Definition trace_of (r : run) : list event := fst r.
Definition outcome_of (r : run) : outcome := snd r.

Notation "x <~ r ;; k" := (res_bind r (fun x => k))
  (at level 61, r at next level, right associativity) : script_scope.

(** ** What the two scripts share *)

Definition TRUTHY : list string := ["1"; "true"; "t"; "yes"; "y"].
Definition ADVISORY_MODES : list string := ["warn"; "advisory"; "adv"].

(** [(os.environ.get(name, default) or default).strip().lower()] *)
Definition env_setting (w : World) (name default : string) : string :=
  let v := match environ w name with Some s => s | None => default end in
  lower (strip (if nonempty v then v else default)).

Definition gate_on (w : World) : bool :=
  mem (env_setting w "WORKTREES_ENABLED" "0") TRUTHY.

Definition bypass_on (w : World) : bool :=
  mem (env_setting w "AGENT_MAIL_BYPASS" "0") TRUTHY.

(** [ADVISORY = MODE in {"warn","advisory","adv"}] *)
Definition ADVISORY (w : World) : bool :=
  mem (env_setting w "AGENT_MAIL_GUARD_MODE" "block") ADVISORY_MODES.

(** [os.environ.get("AGENT_NAME")] when it is truthy. *)
Definition AGENT_NAME (w : World) : option string :=
  match environ w "AGENT_NAME" with
  | Some s => if nonempty s then Some s else None
  | None => None
  end.

Definition dir_exists (w : World) : script bool :=
  emit DirExists ;;;
  ret match reservations w with Some _ => true | None => false end.

Definition run_git (w : World) (args : list string) : script (option string) :=
  emit (GitRun args) ;;; ret (git w args).

Definition endswith (suffix s : string) : bool :=
  String.prefix (PyStr.rev suffix) (PyStr.rev s).

(** [FILE_RESERVATIONS_DIR.glob("*.json")] *)
Definition glob_json (w : World) : script (list dir_entry) :=
  emit DirGlob ;;;
  ret match reservations w with
      | Some entries => filter (fun e => endswith ".json" (fst e)) entries
      | None => []
      end.

(** The snapshot [load_file_reservations] yields: the candidates whose
    text parsed. *)
Fixpoint load_file_reservations (candidates : list dir_entry) : list json :=
  match candidates with
  | [] => []
  | (_, Some data) :: rest => data :: load_file_reservations rest
  | (_, None) :: rest => load_file_reservations rest
  end.

(** The [for file_reservation in load_file_reservations():] loop with a
    given body.  The generator reads one candidate at a time, so a file
    is read only after the body has dealt with the record before it. *)
Fixpoint scan (body : json -> res (list conflict)) (candidates : list dir_entry)
    (conflicts : list conflict) : script (list conflict) :=
  match candidates with
  | [] => ret conflicts
  | (name, content) :: rest =>
      emit (ReadText name) ;;;
      match content with
      | None => scan body rest conflicts
      | Some data =>
          found <- lift (body data) ;;
          scan body rest (conflicts ++ found)%list
      end
  end.

Fixpoint emit_all (es : list event) : script unit :=
  match es with
  | [] => ret tt
  | e :: rest => emit e ;;; emit_all rest
  end.

(** The [if conflicts: ...] block and the final [sys.exit(0)]. *)
Definition report (header advisory_note blocking_note : string) (advisory : bool)
    (conflicts : list conflict) : script Empty_set :=
  match conflicts with
  | [] => sys_exit 0
  | _ =>
      emit (Stderr header) ;;;
      emit_all (map StderrConflict conflicts) ;;;
      if advisory
      then emit (Stderr advisory_note) ;;; sys_exit 0
      else emit (Stderr blocking_note) ;;; sys_exit 1
  end.

(** The argument lists of the invocations (lines 68, 75, 187, 196, 205). *)
Definition NAME_ONLY : list string :=
  ["git"; "diff"; "--cached"; "--name-only"; "-z"; "--diff-filter=ACMRDTU"].
Definition NAME_STATUS : list string :=
  ["git"; "diff"; "--cached"; "--name-status"; "-M"; "-z"].
Definition REV_LIST (local_sha remote : string) : list string :=
  ["git"; "rev-list"; "--topo-order"; local_sha; "--not"; "--remotes=" ++ remote].
Definition DIFF_RANGE (rng : string) : list string :=
  ["git"; "diff"; "--name-only"; rng].
Definition DIFF_TREE (c : string) : list string :=
  ["git"; "diff-tree"; "-r"; "--no-commit-id"; "--name-only"; "--no-ext-diff";
   "--diff-filter=ACMRDTU"; "-z"; c].

(** The fixed texts written to the diagnostic stream. *)
Module Note.
Definition precommit_bypass : string :=
  "[pre-commit] bypass enabled via AGENT_MAIL_BYPASS=1" ++ nl.
Definition precommit_identity : string :=
  "[pre-commit] AGENT_NAME environment variable is required." ++ nl.
Definition precommit_header : string :=
  "[pre-commit] Exclusive file_reservation conflicts detected:" ++ nl.
Definition precommit_advisory : string :=
  "[pre-commit] Advisory mode: not blocking commit (set AGENT_MAIL_GUARD_MODE=block to enforce)." ++ nl.
Definition precommit_blocking : string :=
  "Resolve conflicts or release file_reservations before committing." ++ nl.
Definition prepush_bypass : string :=
  "[pre-push] bypass enabled via AGENT_MAIL_BYPASS=1" ++ nl.
Definition prepush_identity : string :=
  "[pre-push] AGENT_NAME environment variable is required." ++ nl.
Definition prepush_header : string :=
  "[pre-push] Exclusive file_reservation conflicts detected:" ++ nl.
Definition prepush_advisory : string :=
  "[pre-push] Advisory mode: not blocking push (set AGENT_MAIL_GUARD_MODE=block to enforce)." ++ nl.
Definition prepush_blocking : string :=
  "Resolve conflicts or release file_reservations before pushing." ++ nl.
End Note.

Section Scripts.

Variable lib : PyLib.

(** Lines 110-117 and 228-235: [true] when the [continue] of the
    expiry test is reached.  Every exception of the [try] block
    ([fromisoformat] on a non-string or on a bad string, the
    comparison of a naive value with [now]) is swallowed. *)
Definition expired (now : Z) (expires : json) : bool :=
  if truthy expires then
    match expires with
    | JStr s =>
        match fromisoformat lib s with
        | Some expires_dt =>
            match dt_lt expires_dt (Aware now) with
            | Ok b => b
            | Raise _ => false
            end
        | None => false
        end
    | _ => false
    end
  else false.

(** *** The commit-time script *)

(** Lines 118-123: [fnmatch] raises [TypeError] on a pattern that is
    not a string, at the first path. *)
Definition precommit_matches (paths : list string) (agent pattern : json)
    : res (list conflict) :=
  match pattern with
  | JStr p =>
      Ok (map (fun path_value => (path_value, agent, p))
            (filter (fun path_value =>
                       fnmatch lib path_value p || fnmatch lib p path_value)
                    paths))
  | _ => match paths with [] => Ok [] | _ => Raise TypeError end
  end.

(** Body of the loop of lines 107-123: the conflicts one record adds. *)
Definition precommit_body (agent_name : string) (now : Z) (paths : list string)
    (file_reservation : json) : res (list conflict) :=
  agent <~ dict_get file_reservation "agent" ;;
  if eq_str agent agent_name then Ok [] else
  expires <~ dict_get file_reservation "expires_ts" ;;
  if expired now expires then Ok [] else
  pattern <~ dict_get file_reservation "path_pattern" ;;
  if negb (truthy pattern) then Ok [] else
  precommit_matches paths agent pattern.

(** [if p: paths.append(p)] *)
Definition keep (p : string) : list string :=
  if nonempty p then [p] else [].

(** Lines 78-91: the paths of a [--name-status -M -z] listing.  A
    status starting with R takes two paths when two parts are left,
    any other status (or an R with one part left) takes one. *)
Fixpoint name_status_paths (parts : list string) : list string :=
  match parts with
  | [] => []
  | status :: after =>
      if startswith "R" status then
        match after with
        | oldp :: newp :: rest => keep oldp ++ keep newp ++ name_status_paths rest
        | [pth] => keep pth
        | [] => []
        end
      else
        match after with
        | pth :: rest => keep pth ++ name_status_paths rest
        | [] => []
        end
  end%list.

(** Lines 66-93: one [try] around both invocations; what was appended
    before a failure stays in [paths]. *)
Definition staged_paths (w : World) : script (list string) :=
  co <- run_git w NAME_ONLY ;;
  match co with
  | None => ret []
  | Some data =>
      let paths := nul_fields data in
      cs <- run_git w NAME_STATUS ;;
      match cs with
      | None => ret paths
      | Some sdata => ret (paths ++ name_status_paths (nul_fields sdata))%list
      end
  end.

(** Lines 60-123: from the directory test to the end of the scan. *)
Definition precommit_findings (agent_name : string) (w : World) : script (list conflict) :=
  present <- dir_exists w ;;
  if negb present then sys_exit 0 else
  paths <- staged_paths w ;;
  match paths with
  | [] => sys_exit 0
  | _ =>
      candidates <- glob_json w ;;
      scan (precommit_body agent_name (now w) paths) candidates []
  end.

Definition precommit_script (w : World) : run :=
  finish (
    if negb (gate_on w) then sys_exit 0 else
    let advisory := ADVISORY w in
    if bypass_on w then
      emit (Stderr Note.precommit_bypass) ;;;
      sys_exit 0
    else
    match AGENT_NAME w with
    | None =>
        emit (Stderr Note.precommit_identity) ;;;
        sys_exit 1
    | Some agent_name =>
        conflicts <- precommit_findings agent_name w ;;
        report Note.precommit_header Note.precommit_advisory Note.precommit_blocking
               advisory conflicts
    end).

(** *** The push-time script *)

(** Lines 175-178 *)
Definition read_tuples (input : string) : list (string * string * string * string) :=
  flat_map (fun line =>
              match split_ws (strip line) with
              | p0 :: p1 :: p2 :: p3 :: _ => [(p0, p1, p2, p3)]
              | _ => []
              end)
           (splitlines input).

(** [sys.argv[1] if len(sys.argv) > 1 else "origin"] *)
Definition remote_name (w : World) : string :=
  match argv w with
  | _ :: r :: _ => r
  | _ => "origin"
  end.

(** Lines 194-200: the fallback appends the lines of the direct diff
    to [commits]. *)
Definition fallback (w : World) (local_sha remote_sha : string) : script (list string) :=
  let rng := if negb (nonempty remote_sha) || only_zeros remote_sha
             then local_sha
             else remote_sha ++ ".." ++ local_sha in
  cp <- run_git w (DIFF_RANGE rng) ;;
  match cp with
  | Some out => ret (splitlines out)
  | None => ret []
  end.

(** Lines 180-200: what the loop over the tuples appends to [commits]. *)
Fixpoint collect_commits (w : World) (tuples : list (string * string * string * string))
    : script (list string) :=
  match tuples with
  | [] => ret []
  | (local_ref, local_sha, remote_ref, remote_sha) :: rest =>
      here <- (if negb (nonempty local_sha) then ret [] else
               let remote := remote_name w in
               cp <- run_git w (REV_LIST local_sha remote) ;;
               match cp with
               | Some out => ret (map strip (filter nonempty (splitlines out)))
               | None => fallback w local_sha remote_sha
               end) ;;
      more <- collect_commits w rest ;;
      ret (here ++ more)%list
  end.

(** Lines 202-211: every entry of [commits] is handed to [diff-tree]. *)
Fixpoint collect_changed (w : World) (commits : list string) : script (list string) :=
  match commits with
  | [] => ret []
  | c :: rest =>
      cp <- run_git w (DIFF_TREE c) ;;
      more <- collect_changed w rest ;;
      ret (match cp with Some data => nul_fields data | None => [] end ++ more)%list
  end.

(** Line 236: the pattern, or the empty string when it is falsy, stripped. *)
Definition prepush_pattern (raw : json) : res string :=
  if truthy raw then
    match raw with
    | JStr s => Ok (strip s)
    | _ => Raise AttributeError
    end
  else Ok (strip EmptyString).

(** Lines 242-244 *)
Definition prepush_match (path_value pattern : string) : bool :=
  let a := lstrip_slash (backslash_to_slash path_value) in
  let b := lstrip_slash (backslash_to_slash pattern) in
  fnmatchcase lib a b || fnmatchcase lib b a || String.eqb a b.

(** Body of the loop of lines 223-245. *)
Definition prepush_body (agent_name : string) (now : Z) (changed : list string)
    (file_reservation : json) : res (list conflict) :=
  agent <~ dict_get file_reservation "agent" ;;
  if eq_str agent agent_name then Ok [] else
  exclusive <~ dict_get_default file_reservation "exclusive" (JBool true) ;;
  if negb (truthy exclusive) then Ok [] else
  expires <~ dict_get file_reservation "expires_ts" ;;
  if expired now expires then Ok [] else
  raw <~ dict_get file_reservation "path_pattern" ;;
  pattern <~ prepush_pattern raw ;;
  if negb (nonempty pattern) then Ok [] else
  Ok (map (fun path_value => (path_value, agent, pattern))
        (filter (fun path_value => prepush_match path_value pattern) changed)).

(** Lines 170-245: from the directory test to the end of the scan. *)
Definition prepush_findings (agent_name : string) (w : World) : script (list conflict) :=
  present <- dir_exists w ;;
  if negb present then sys_exit 0 else
  emit ReadStdin ;;;
  let tuples := read_tuples (stdin w) in
  commits <- collect_commits w tuples ;;
  changed <- collect_changed w commits ;;
  candidates <- glob_json w ;;
  scan (prepush_body agent_name (now w) changed) candidates [].

Definition prepush_script (w : World) : run :=
  finish (
    if negb (gate_on w) then sys_exit 0 else
    let advisory := ADVISORY w in
    if bypass_on w then
      emit (Stderr Note.prepush_bypass) ;;;
      sys_exit 0
    else
    match AGENT_NAME w with
    | None =>
        emit (Stderr Note.prepush_identity) ;;;
        sys_exit 1
    | Some agent_name =>
        conflicts <- prepush_findings agent_name w ;;
        report Note.prepush_header Note.prepush_advisory Note.prepush_blocking
               advisory conflicts
    end).

End Scripts.

(** ** The rendering functions *)

(** The elements of the two list literals: string literals (an f-string
    is the string it formats to), and a unary plus in front of one. *)
Inductive pyexpr : Type :=
| EStr (s : string)
| EPos (e : pyexpr).

(** Unary plus is not defined on [str]: [+"..."] raises [TypeError]. *)
Fixpoint eval (e : pyexpr) : res string :=
  match e with
  | EStr s => Ok s
  | EPos e' => _ <~ eval e' ;; Raise TypeError
  end.

(** A list display evaluates its elements from left to right. *)
Fixpoint eval_list (es : list pyexpr) : res (list string) :=
  match es with
  | [] => Ok []
  | e :: rest => s <~ eval e ;; ss <~ eval_list rest ;; Ok (s :: ss)
  end.

Section Render.

(** [pathlib]: [joinpath p name] is [p / name], [resolve p] the
    absolute path [p.resolve()] finds on the file system, [str] its
    text. *)
Variable Path : Type.
Variable joinpath : Path -> string -> Path.
Variable resolve : Path -> Path.
Variable str : Path -> string.

Record ProjectArchive : Type := { root : Path }.

Definition precommit_lines (file_reservations_dir storage_root : string) : list pyexpr :=
  [
    EStr "#!/usr/bin/env python3";
    EStr "import json";
    EStr "import os";
    EStr "import sys";
    EStr "import subprocess";
    EStr "from pathlib import Path";
    EStr "from fnmatch import fnmatch";
    EStr "from datetime import datetime, timezone";
    EStr EmptyString;
    EStr (q "FILE_RESERVATIONS_DIR = Path(`" ++ file_reservations_dir ++ q "`)");
    EStr (q "STORAGE_ROOT = Path(`" ++ storage_root ++ q "`)");
    EStr EmptyString;
    EStr "# Global gate: if not explicitly enabled, this hook is a no-op.";
    EStr (q "if (os.environ.get(`WORKTREES_ENABLED`,`0`) or `0`).strip().lower() not in {`1`,`true`,`t`,`yes`,`y`}:");
    EStr "    sys.exit(0)";
    EStr EmptyString;
    EStr "# Advisory/blocking mode: default to 'block' unless explicitly set to 'warn'.";
    EStr (q "MODE = (os.environ.get(`AGENT_MAIL_GUARD_MODE`,`block`) or `block`).strip().lower()");
    EStr (q "ADVISORY = MODE in {`warn`,`advisory`,`adv`}");
    EStr EmptyString;
    EStr "# Emergency bypass";
    EStr (q "if (os.environ.get(`AGENT_MAIL_BYPASS`,`0`) or `0`).strip().lower() in {`1`,`true`,`t`,`yes`,`y`}:");
    EStr (q "    sys.stderr.write(`[pre-commit] bypass enabled via AGENT_MAIL_BYPASS=1\n`)");
    EStr "    sys.exit(0)";
    EStr (q "AGENT_NAME = os.environ.get(`AGENT_NAME`)");
    EStr "if not AGENT_NAME:";
    EStr (q "    sys.stderr.write(`[pre-commit] AGENT_NAME environment variable is required.\n`)");
    EStr "    sys.exit(1)";
    EStr EmptyString;
    EStr "if not FILE_RESERVATIONS_DIR.exists():";
    EStr "    sys.exit(0)";
    EStr EmptyString;
    EStr "now = datetime.now(timezone.utc)";
    EStr EmptyString;
    EStr "# Collect staged paths (name-only) and expand renames/moves (old+new)";
    EStr "paths = []";
    EStr "try:";
    EStr (q "    co = subprocess.run([`git`,`diff`,`--cached`,`--name-only`,`-z`,`--diff-filter=ACMRDTU`],");
    EStr "                        check=True,capture_output=True)";
    EStr (q "    data = co.stdout.decode(`utf-8`,`ignore`)");
    EStr (q "    for p in data.split(`\x00`):");
    EStr "        if p:";
    EStr "            paths.append(p)";
    EStr "    # Rename detection: capture both old and new names";
    EStr (q "    cs = subprocess.run([`git`,`diff`,`--cached`,`--name-status`,`-M`,`-z`],");
    EStr "                        check=True,capture_output=True)";
    EStr (q "    sdata = cs.stdout.decode(`utf-8`,`ignore`)");
    EStr (q "    parts = [x for x in sdata.split(`\x00`) if x]");
    EStr "    i = 0";
    EStr "    while i < len(parts):";
    EStr "        status = parts[i]";
    EStr "        i += 1";
    EStr (q "        if status.startswith(`R`) and i + 1 < len(parts):");
    EStr "            oldp = parts[i]; newp = parts[i+1]; i += 2";
    EStr "            if oldp: paths.append(oldp)";
    EStr "            if newp: paths.append(newp)";
    EStr "        else:";
    EStr "            # Status followed by one path";
    EStr "            if i < len(parts):";
    EStr "                pth = parts[i]; i += 1";
    EStr "                if pth: paths.append(pth)";
    EStr "except Exception:";
    EStr "    pass";
    EStr EmptyString;
    EStr "if not paths:";
    EStr "    sys.exit(0)";
    EStr EmptyString;
    EStr "def load_file_reservations():";
    EStr (q "    for candidate in FILE_RESERVATIONS_DIR.glob(`*.json`):");
    EStr "        try:";
    EStr "            data = json.loads(candidate.read_text())";
    EStr "        except Exception:";
    EStr "            continue";
    EStr "        yield data";
    EStr EmptyString;
    EStr "conflicts = []";
    EStr "for file_reservation in load_file_reservations():";
    EStr (q "    if file_reservation.get(`agent`) == AGENT_NAME:");
    EStr "        continue";
    EStr (q "    expires = file_reservation.get(`expires_ts`)");
    EStr "    if expires:";
    EStr "        try:";
    EStr "            expires_dt = datetime.fromisoformat(expires)";
    EStr "            if expires_dt < now:";
    EStr "                continue";
    EStr "        except Exception:";
    EStr "            pass";
    EStr (q "    pattern = file_reservation.get(`path_pattern`)");
    EStr "    if not pattern:";
    EStr "        continue";
    EStr "    for path_value in paths:";
    EStr "        if fnmatch(path_value, pattern) or fnmatch(pattern, path_value):";
    EStr (q "            conflicts.append((path_value, file_reservation.get(`agent`), pattern))");
    EStr EmptyString;
    EStr "if conflicts:";
    EStr (q "    sys.stderr.write(`[pre-commit] Exclusive file_reservation conflicts detected:\n`)");
    EStr "    for path_value, agent_name, pattern in conflicts:";
    EStr (q "        sys.stderr.write(f`  - {path_value} matches file_reservation '{pattern}' held by {agent_name}\n`)");
    EStr "    if ADVISORY:";
    EStr (q "        sys.stderr.write(`[pre-commit] Advisory mode: not blocking commit (set AGENT_MAIL_GUARD_MODE=block to enforce).\n`)");
    EStr "        sys.exit(0)";
    EStr "    else:";
    EStr (q "        sys.stderr.write(`Resolve conflicts or release file_reservations before committing.\n`)");
    EStr "        sys.exit(1)";
    EStr EmptyString;
    EStr "sys.exit(0)"
  ].

Definition render_precommit_script (archive : ProjectArchive) : res string :=
  let file_reservations_dir := str (resolve (joinpath (root archive) "file_reservations")) in
  let storage_root := str (resolve (root archive)) in
  lines <~ eval_list (precommit_lines file_reservations_dir storage_root) ;;
  Ok (join_lines lines ++ nl).

Definition prepush_lines (file_reservations_dir : string) : list pyexpr :=
  [
    EStr "#!/usr/bin/env python3";
    EStr "import json";
    EStr "import os";
    EStr "import sys";
    EStr "import subprocess";
    EStr "from pathlib import Path";
    EStr "from datetime import datetime, timezone";
    EStr EmptyString;
    EStr (q "FILE_RESERVATIONS_DIR = Path(`" ++ file_reservations_dir ++ q "`)");
    EStr EmptyString;
    EStr "# Gate";
    EStr (q "if (os.environ.get(`WORKTREES_ENABLED`,`0`) or `0`).strip().lower() not in {`1`,`true`,`t`,`yes`,`y`}:");
    EStr "    sys.exit(0)";
    EStr (q "MODE = (os.environ.get(`AGENT_MAIL_GUARD_MODE`,`block`) or `block`).strip().lower()");
    EStr (q "ADVISORY = MODE in {`warn`,`advisory`,`adv`}");
    EStr (q "if (os.environ.get(`AGENT_MAIL_BYPASS`,`0`) or `0`).strip().lower() in {`1`,`true`,`t`,`yes`,`y`}:");
    EStr (q "    sys.stderr.write(`[pre-push] bypass enabled via AGENT_MAIL_BYPASS=1\n`)");
    EStr "    sys.exit(0)";
    EStr (q "AGENT_NAME = os.environ.get(`AGENT_NAME`)");
    EStr "if not AGENT_NAME:";
    EStr (q "    sys.stderr.write(`[pre-push] AGENT_NAME environment variable is required.\n`)");
    EStr "    sys.exit(1)";
    EStr "if not FILE_RESERVATIONS_DIR.exists():";
    EStr "    sys.exit(0)";
    EStr EmptyString;
    EStr "# Read tuples from STDIN: <local ref> <local sha> <remote ref> <remote sha>";
    EStr "tuples = []";
    EStr "for line in sys.stdin.read().splitlines():";
    EStr "    parts = line.strip().split()";
    EStr "    if len(parts) >= 4:";
    EStr "        tuples.append((parts[0], parts[1], parts[2], parts[3]))";
    EStr EmptyString;
    EStr "commits = []";
    EStr "for local_ref, local_sha, remote_ref, remote_sha in tuples:";
    EStr "    if not local_sha:";
    EStr "        continue";
    EStr "    # Enumerate commits to be pushed using remote name from args (argv[1]) when available";
    EStr (q "    remote = (sys.argv[1] if len(sys.argv) > 1 else `origin`)");
    EStr "    try:";
    EStr (q "        cp = subprocess.run([`git`,`rev-list`,`--topo-order`,local_sha,`--not`,f`--remotes={remote}`],");
    EStr "                            check=True,capture_output=True,text=True)";
    EStr "        for sha in cp.stdout.splitlines():";
    EStr "            if sha:";
    EStr "                commits.append(sha.strip())";
    EStr "    except Exception:";
    EStr "        # Fallback: remote range when available";
    EStr (q "        rng = local_sha if (not remote_sha or set(remote_sha) == {`0`}) else f`{remote_sha}..{local_sha}`");
    EStr "        try:";
    EStr (q "            cp = subprocess.run([`git`,`diff`,`--name-only`,rng],check=True,capture_output=True,text=True)");
    EStr "            for p in cp.stdout.splitlines():";
    EStr "                commits.append(p)  # marker; will be handled below";
    EStr "        except Exception:";
    EStr "            pass";
    EStr EmptyString;
    EStr "changed = []";
    EStr "for c in commits:";
    EStr "    try:";
    EStr (q "        cp = subprocess.run([`git`,`diff-tree`,`-r`,`--no-commit-id`,`--name-only`,`--no-ext-diff`,`--diff-filter=ACMRDTU`,`-z`,c],");
    EStr "                            check=True,capture_output=True)";
    EStr (q "        data = cp.stdout.decode(`utf-8`,`ignore`)");
    EStr (q "        paths = [p for p in data.split(`\x00`) if p]");
    EPos (EStr "        changed.extend(paths)");
    EStr "    except Exception:";
    EStr "        continue";
    EStr EmptyString;
    EStr "def load_file_reservations():";
    EStr (q "    for candidate in FILE_RESERVATIONS_DIR.glob(`*.json`):");
    EStr "        try:";
    EStr "            data = json.loads(candidate.read_text())";
    EStr "        except Exception:";
    EStr "            continue";
    EStr "        yield data";
    EStr EmptyString;
    EStr "now = datetime.now(timezone.utc)";
    EStr "conflicts = []";
    EStr "for file_reservation in load_file_reservations():";
    EStr (q "    if file_reservation.get(`agent`) == AGENT_NAME:");
    EStr "        continue";
    EStr (q "    if not file_reservation.get(`exclusive`, True):");
    EStr "        continue";
    EStr (q "    expires = file_reservation.get(`expires_ts`)");
    EStr "    if expires:";
    EStr "        try:";
    EStr "            expires_dt = datetime.fromisoformat(expires)";
    EStr "            if expires_dt < now:";
    EStr "                continue";
    EStr "        except Exception:";
    EStr "            pass";
    EStr (q "    pattern = (file_reservation.get(`path_pattern`) or ``).strip()");
    EStr "    if not pattern:";
    EStr "        continue";
    EStr "    for path_value in changed:";
    EStr "        # simple fnmatch-style compare; hook remains dependency-free";
    EStr "        import fnmatch as _fn";
    EStr (q "        a = path_value.replace(`\\`,`/`).lstrip(`/`)");
    EStr (q "        b = pattern.replace(`\\`,`/`).lstrip(`/`)");
    EStr "        if _fn.fnmatchcase(a,b) or _fn.fnmatchcase(b,a) or (a==b):";
    EStr (q "            conflicts.append((path_value, file_reservation.get(`agent`), pattern))");
    EStr EmptyString;
    EStr "if conflicts:";
    EStr (q "    sys.stderr.write(`[pre-push] Exclusive file_reservation conflicts detected:\n`)");
    EStr "    for path_value, agent_name, pattern in conflicts:";
    EStr (q "        sys.stderr.write(f`  - {path_value} matches file_reservation '{pattern}' held by {agent_name}\n`)");
    EStr "    if ADVISORY:";
    EStr (q "        sys.stderr.write(`[pre-push] Advisory mode: not blocking push (set AGENT_MAIL_GUARD_MODE=block to enforce).\n`)");
    EStr "        sys.exit(0)";
    EStr "    else:";
    EStr (q "        sys.stderr.write(`Resolve conflicts or release file_reservations before pushing.\n`)");
    EStr "        sys.exit(1)";
    EStr EmptyString;
    EStr "sys.exit(0)"
  ].

Definition render_prepush_script (archive : ProjectArchive) : res string :=
  let file_reservations_dir := str (resolve (joinpath (root archive) "file_reservations")) in
  lines <~ eval_list (prepush_lines file_reservations_dir) ;;
  Ok (join_lines lines ++ nl).

End Render.

Arguments root {Path} _.
Arguments render_precommit_script {Path} joinpath resolve str archive.
Arguments render_prepush_script {Path} joinpath resolve str archive.

(** ** Records and worlds the statements talk about *)

(** The value of field [k] of a record that is a dict. *)
Definition field (k : string) (r : json) : option json :=
  match r with
  | JObj items => assoc k items
  | _ => None
  end.

Fixpoint remove_key (k : string) (items : list (string * json)) : list (string * json) :=
  match items with
  | [] => []
  | (k', v) :: rest =>
      if String.eqb k k' then remove_key k rest else (k', v) :: remove_key k rest
  end.

(** The record without its field [k]. *)
Definition without (k : string) (r : json) : json :=
  match r with
  | JObj items => JObj (remove_key k items)
  | _ => r
  end.

(** The same world with one environment variable set or unset. *)
Definition with_env (name : string) (value : option string) (w : World) : World :=
  {| environ := fun k => if String.eqb k name then value else environ w k;
     argv := argv w; stdin := stdin w; now := now w; git := git w;
     reservations := reservations w |}.

(** The same world with another reservation directory. *)
Definition with_reservations (d : option (list dir_entry)) (w : World) : World :=
  {| environ := environ w; argv := argv w; stdin := stdin w; now := now w;
     git := git w; reservations := d |}.

(** Events that touch the reservation directory beyond the existence
    test, and events that report a conflict. *)
Definition loads_snapshot (e : event) : bool :=
  match e with
  | DirGlob | ReadText _ => true
  | _ => false
  end.

Definition touches_reservations (e : event) : bool :=
  match e with
  | DirExists | DirGlob | ReadText _ => true
  | _ => false
  end.

Definition reports_conflict (e : event) : bool :=
  match e with
  | StderrConflict _ => true
  | _ => false
  end.

(** Events that write nothing to the diagnostic stream. *)
Definition silent (e : event) : bool :=
  match e with
  | Stderr _ | StderrConflict _ => false
  | _ => true
  end.

(** The holder named by a conflict, and the events that report a
    conflict held by agent [a]. *)
Definition holder (c : conflict) : json := snd (fst c).

Definition names_holder (a : string) (e : event) : bool :=
  match e with
  | StderrConflict c => eq_str (holder c) a
  | _ => false
  end.

(** *** A concrete library for the examples *)

Module Concrete.

(** [fnmatchcase] on patterns made of literal characters, [*] and [?]
    (no bracket expression). *)
Fixpoint glob (pat name : list ascii) : bool :=
  match pat with
  | [] => match name with [] => true | _ => false end
  | c :: pat' =>
      if Ascii.eqb c "*"%char then
        (fix star (n : list ascii) : bool :=
           glob pat' n || match n with [] => false | _ :: n' => star n' end) name
      else
        match name with
        | [] => false
        | d :: name' =>
            (Ascii.eqb c "?"%char || Ascii.eqb c d) && glob pat' name'
        end
  end.

Definition glob_match (name pat : string) : bool :=
  glob (list_ascii_of_string pat) (list_ascii_of_string name).

Definition digit (c : ascii) : option Z :=
  let n := nat_of_ascii c in
  if ((48 <=? n)%nat && (n <=? 57)%nat)%bool then Some (Z.of_nat n - 48) else None.

Fixpoint digits (acc : Z) (s : string) : option Z :=
  match s with
  | EmptyString => Some acc
  | String c r =>
      match digit c with
      | Some d => digits (10 * acc + d) r
      | None => None
      end
  end.

(** The number written at [pos], [len] digits wide. *)
Definition number (s : string) (pos len : nat) : option Z :=
  let t := substring pos len s in
  if (String.length t =? len)%nat then digits 0 t else None.

Definition char_at (s : string) (pos : nat) (c : ascii) : bool :=
  match get pos s with
  | Some d => Ascii.eqb d c
  | None => false
  end.

Definition is_leap (y : Z) : bool :=
  ((y mod 4 =? 0) && negb (y mod 100 =? 0)) || (y mod 400 =? 0).

Definition days_in_month (y m : Z) : Z :=
  if m =? 2 then (if is_leap y then 29 else 28)
  else if (m =? 4) || (m =? 6) || (m =? 9) || (m =? 11) then 30
  else 31.

(** Days from 1970-01-01 to the given civil date. *)
Definition days_from_civil (y m d : Z) : Z :=
  let y' := if m <=? 2 then y - 1 else y in
  let era := y' / 400 in
  let yoe := y' - era * 400 in
  let doy := (153 * (if 2 <? m then m - 3 else m + 9) + 2) / 5 + d - 1 in
  let doe := yoe * 365 + yoe / 4 - yoe / 100 + doy in
  era * 146097 + doe - 719468.

(** [datetime.fromisoformat] on the two shapes
    [YYYY-MM-DDTHH:MM:SS] (naive) and [YYYY-MM-DDTHH:MM:SS+HH:MM]
    (aware); anything else is taken as unparsable. *)
Definition parse_iso (s : string) : option datetime :=
  let n := String.length s in
  if negb (char_at s 4 "-" && char_at s 7 "-" && char_at s 10 "T"
           && char_at s 13 ":" && char_at s 16 ":") then None else
  match number s 0 4, number s 5 2, number s 8 2,
        number s 11 2, number s 14 2, number s 17 2 with
  | Some y, Some mo, Some d, Some h, Some mi, Some sec =>
      if negb ((1 <=? y) && (1 <=? mo) && (mo <=? 12) && (1 <=? d)
               && (d <=? days_in_month y mo) && (h <? 24) && (mi <? 60) && (sec <? 60))
      then None else
      let wall := (days_from_civil y mo d * 86400 + h * 3600 + mi * 60 + sec) * 1000000 in
      if (n =? 19)%nat then Some (Naive wall)
      else if ((n =? 25)%nat && (char_at s 19 "+" || char_at s 19 "-")
               && char_at s 22 ":")%bool then
        match number s 20 2, number s 23 2 with
        | Some oh, Some om =>
            if (oh <? 24) && (om <? 60) then
              let off := (oh * 3600 + om * 60) * 1000000 in
              Some (Aware (if char_at s 19 "+" then wall - off else wall + off))
            else None
        | _, _ => None
        end
      else None
  | _, _, _, _, _, _ => None
  end.

(** On a POSIX system [fnmatch] is [fnmatchcase]. *)
Definition pylib : PyLib :=
  {| fnmatch := glob_match; fnmatchcase := glob_match; fromisoformat := parse_iso |}.

End Concrete.

(** [needle] occurs in [hay]. *)
Definition contains (needle hay : string) : Prop :=
  exists before after, hay = before ++ needle ++ after.

(** *** Concrete worlds *)

Module Scenario.

Import Concrete.

Definition z : string := String NUL EmptyString.

Fixpoint args_eqb (a b : list string) : bool :=
  match a, b with
  | [], [] => true
  | x :: a', y :: b' => String.eqb x y && args_eqb a' b'
  | _, _ => false
  end.

(** An environment given by its variables. *)
Fixpoint env (vars : list (string * string)) (k : string) : option string :=
  match vars with
  | [] => None
  | (k', v) :: rest => if String.eqb k k' then Some v else env rest k
  end.

(** A version-control tool that answers the listed invocations and
    fails on every other one. *)
Fixpoint answers (rows : list (list string * string)) (args : list string) : option string :=
  match rows with
  | [] => None
  | (a, out) :: rest => if args_eqb args a then Some out else answers rest args
  end.

(** 2025-01-01T00:00:00 UTC, in microseconds. *)
Definition t0 : Z := 1735689600000000.

Definition reservation (agent : string) (more : list (string * json)) : json :=
  JObj (("agent", JStr agent) :: ("path_pattern", JStr "src/shared.txt") :: more).

(** Scenario A of the specification: B holds [src/shared.txt] for
    another hour. *)
Definition held_by_B : json :=
  reservation "B" [("exclusive", JBool true);
                   ("expires_ts", JStr "2025-01-01T01:00:00+00:00")].

Definition shared_B : json :=
  reservation "B" [("exclusive", JBool false)].

Definition expiring_now_B : json :=
  reservation "B" [("expires_ts", JStr "2025-01-01T00:00:00+00:00")].

Definition expired_B : json :=
  reservation "B" [("expires_ts", JStr "2024-12-31T23:59:59+00:00")].

Definition bad_expiry_B : json :=
  reservation "B" [("expires_ts", JStr "next tuesday")].

Definition one_path : list string := ["src/shared.txt"].

Definition git_ok : list string -> option string :=
  answers [(NAME_ONLY, "src/shared.txt" ++ z);
           (NAME_STATUS, "M" ++ z ++ "src/shared.txt" ++ z);
           (REV_LIST "1111" "origin", "c0ffee" ++ nl);
           (DIFF_TREE "c0ffee", "src/shared.txt" ++ z)].

(** Agent A commits or pushes a change of [src/shared.txt]. *)
Definition world (vars : list (string * string)) (g : list string -> option string)
    (records : list dir_entry) : World :=
  {| environ := env vars;
     argv := ["pre-push"; "origin"; "ssh://example/repo.git"];
     stdin := "refs/heads/main 1111 refs/heads/main 2222" ++ nl;
     now := t0;
     git := g;
     reservations := Some records |}.

Definition A_on : list (string * string) :=
  [("WORKTREES_ENABLED", "1"); ("AGENT_NAME", "A")].

Definition scenario_A : World := world A_on git_ok [("lock.json", Some held_by_B)].

Definition scenario_B : World :=
  world [("WORKTREES_ENABLED", "1"); ("AGENT_NAME", "B")] git_ok
        [("lock.json", Some held_by_B)].

(** The reservation of scenario A, held without exclusivity. *)
Definition shared_world : World := world A_on git_ok [("lock.json", Some shared_B)].

(** The rename listing cannot be had: only the first invocation
    answers. *)
Definition git_no_status : list string -> option string :=
  answers [(NAME_ONLY, "src/shared.txt" ++ z)].

Definition status_fails : World :=
  world A_on git_no_status [("lock.json", Some held_by_B)].

(** The commits to push cannot be listed; the direct diff names
    [src/shared.txt], which is not the name of a commit. *)
Definition git_fallback : list string -> option string :=
  answers [(DIFF_RANGE "2222..1111", "src/shared.txt" ++ nl)].

Definition rev_list_fails : World :=
  world A_on git_fallback [("lock.json", Some held_by_B)].

Definition demo_archive : ProjectArchive string := {| root := "/srv/mail/projects/demo" |}.

End Scenario.
(** ** Notions used to state further properties of the scripts *)

(** One entry of a [--name-status -M -z] listing: a status with one
    path, or a rename status with the old and the new path. *)
Inductive entry : Type :=
| Change (status path : string)
| Rename (status oldp newp : string).

(** The NUL-separated fields of an entry, and the paths it names. *)
Definition entry_parts (e : entry) : list string :=
  match e with
  | Change status path => [status; path]
  | Rename status oldp newp => [status; oldp; newp]
  end.

Definition entry_paths (e : entry) : list string :=
  match e with
  | Change _ path => [path]
  | Rename _ oldp newp => [oldp; newp]
  end.

(** Rename statuses start with R, the others do not; paths are not
    empty. *)
Definition well_formed (e : entry) : bool :=
  match e with
  | Change status path => negb (startswith "R" status) && nonempty path
  | Rename status oldp newp => startswith "R" status && nonempty oldp && nonempty newp
  end.

(** A non-empty string without white space. *)
Definition is_token (s : string) : bool :=
  nonempty s && forallb (fun c => negb (isspace c)) (list_ascii_of_string s).

(** [r.get(k)] on a dict [r]: the value, [None] when the key is
    missing. *)
Definition value (k : string) (items : list (string * json)) : json :=
  match assoc k items with
  | Some v => v
  | None => JNull
  end.

Definition is_dict (r : json) : bool :=
  match r with
  | JObj _ => true
  | _ => false
  end.

(** The conflicts a run writes to the diagnostic stream, in order. *)
Fixpoint reported (t : list event) : list conflict :=
  match t with
  | [] => []
  | StderrConflict c :: rest => c :: reported rest
  | _ :: rest => reported rest
  end.

(** *** More worlds for the examples *)

Module Sample.

Import Scenario.

(** A rename of [old.txt] to [new.txt] staged next to a change of
    [src/shared.txt]. *)
Definition git_rename : list string -> option string :=
  answers [(NAME_ONLY, "new.txt" ++ z ++ "src/shared.txt" ++ z);
           (NAME_STATUS,
            "R100" ++ z ++ "old.txt" ++ z ++ "new.txt" ++ z
            ++ "M" ++ z ++ "src/shared.txt" ++ z)].

Definition rename_world : World := world A_on git_rename [("lock.json", Some held_by_B)].

Definition rename_listing : list entry :=
  [Rename "R100" "old.txt" "new.txt"; Change "M" "src/shared.txt"].

(** A reservation file that holds a JSON list. *)
Definition list_world : World :=
  world (("AGENT_MAIL_GUARD_MODE", "warn") :: A_on) git_ok
        [("notes.txt", None); ("list.json", Some (JArr []))].

Definition held_by_B_items : list (string * json) :=
  [("agent", JStr "B"); ("path_pattern", JStr "src/shared.txt");
   ("exclusive", JBool true); ("expires_ts", JStr "2025-01-01T01:00:00+00:00")].

End Sample.

(** ** The installer ([install_guard], [install_prepush_guard],
    [uninstall_guard])

    What the three functions do to the checkout is recorded as a list
    of [ievent]s.  The file-system calls are taken to succeed; what the
    version-control tool and [exists] answer comes from a [Host]. *)

Inductive ievent (Path : Type) : Type :=
| IEnsureArchive (project_slug : string)      (* ensure_archive(settings, slug) *)
| IGit (cwd : Path) (args : list string)      (* git -C cwd args *)
| IExists (p : Path)                          (* p.exists() *)
| IMkdir (p : Path)                           (* p.mkdir(parents=True, exist_ok=True) *)
| ILock                                       (* entering archive_write_lock *)
| IWriteText (p : Path) (text : string)       (* p.write_text(text, "utf-8") *)
| IChmod (p : Path) (mode : Z)                (* os.chmod(p, mode) *)
| IUnlock                                     (* leaving archive_write_lock *)
| IUnlink (p : Path).                         (* p.unlink() *)

Arguments IEnsureArchive {Path} project_slug.
Arguments IGit {Path} cwd args.
Arguments IExists {Path} p.
Arguments IMkdir {Path} p.
Arguments ILock {Path}.
Arguments IWriteText {Path} p text.
Arguments IChmod {Path} p mode.
Arguments IUnlock {Path}.
Arguments IUnlink {Path} p.

(** [hooks_path[1:3]] *)
Definition slice_1_3 (s : string) : string := substring 1 2 s.

(** Line 279: the test that takes a configured hooks path as it is: a
    leading slash, or a drive letter followed by a colon and a
    backslash or a slash. *)
Definition taken_as_absolute (hooks_path : string) : bool :=
  startswith "/" hooks_path
  || (((1 <? String.length hooks_path)%nat
       && String.eqb (slice_1_3 hooks_path) (String ":" (String BACKSLASH EmptyString)))
      || String.eqb (slice_1_3 hooks_path) ":/").

Section Installer.

Variable Path : Type.
Variable Settings : Type.
Variable mkpath : string -> Path.                (* Path(s) *)
Variable joinpath : Path -> string -> Path.      (* p / name *)
Variable joinpaths : Path -> Path -> Path.       (* p / q *)
Variable is_absolute : Path -> bool.
Variable parent : Path -> Path.
Variable name : Path -> string.
Variable resolve : Path -> Path.
Variable str : Path -> string.

Record Host : Type := {
  git_c : Path -> list string -> option string;  (* stdout, None when the run fails *)
  path_exists : Path -> bool;
  ensure_archive : Settings -> string -> ProjectArchive Path
}.

(** A step of the installer: its events, and a value or an exception. *)
Definition inst (A : Type) : Type := (list (ievent Path) * res A)%type.

Definition iret {A} (a : A) : inst A := ([], Ok a).

Definition ibind {A B} (m : inst A) (f : A -> inst B) : inst B :=
  match m with
  | (t, Ok a) => let (t', r) := f a in ((t ++ t')%list, r)
  | (t, Raise e) => (t, Raise e)
  end.

Definition iemit (e : ievent Path) : inst unit := ([e], Ok tt).

Definition ilift {A} (r : res A) : inst A := ([], r).

Notation "x <-- m ;; k" := (ibind m (fun x => k))
  (at level 61, m at next level, right associativity).
Notation "m ;;- k" := (ibind m (fun _ => k))
  (at level 61, right associativity).

Variable h : Host.

(** [_git(cwd, *args)]: the stripped output, [None] on any failure. *)
Definition _git (cwd : Path) (args : list string) : inst (option string) :=
  iemit (IGit cwd args) ;;-
  iret match git_c h cwd args with
       | Some out => Some (strip out)
       | None => None
       end.

(** A result of [_git] that is truthy: a non-empty output. *)
Definition given (x : option string) : option string :=
  match x with
  | Some s => if nonempty s then Some s else None
  | None => None
  end.

(** [x or default] for the result of [_git]. *)
Definition or_else (x : option string) (default : string) : string :=
  match given x with
  | Some s => s
  | None => default
  end.

(** [_resolve_hooks_dir] (lines 275-294 and 324-339, the same code). *)
Definition _resolve_hooks_dir (repo : Path) : inst Path :=
  hooks_path <-- _git repo ["config"; "--get"; "core.hooksPath"] ;;
  match given hooks_path with
  | Some hooks_path =>
      if taken_as_absolute hooks_path then iret (mkpath hooks_path)
      else
        top <-- _git repo ["rev-parse"; "--show-toplevel"] ;;
        let root := or_else top (str repo) in
        iret (joinpath (mkpath root) hooks_path)
  | None =>
      git_dir <-- _git repo ["rev-parse"; "--git-dir"] ;;
      match given git_dir with
      | Some git_dir =>
          let g := mkpath git_dir in
          let g := if is_absolute g then g else joinpaths repo g in
          iret (joinpath g "hooks")
      | None => iret (joinpath (joinpath repo ".git") "hooks")
      end
  end.

(** [p.exists()] *)
Definition exists_ (p : Path) : inst bool :=
  iemit (IExists p) ;;- iret (path_exists h p).

(** [install_guard] (lines 263-310): the script is rendered before the
    lock is taken; the directory, the file and its mode are written
    under the lock. *)
Definition install_guard (settings : Settings) (project_slug : string) (repo_path : Path)
    : inst Path :=
  iemit (IEnsureArchive project_slug) ;;-
  let archive := ensure_archive h settings project_slug in
  hooks_dir <-- _resolve_hooks_dir repo_path ;;
  parent_there <-- exists_ (parent hooks_dir) ;;
  (if negb parent_there && negb (String.eqb (name hooks_dir) "hooks")
   then iemit (IMkdir (parent hooks_dir)) else iret tt) ;;-
  there <-- exists_ hooks_dir ;;
  (if negb there then iemit (IMkdir hooks_dir) else iret tt) ;;-
  let hook_path := joinpath hooks_dir "pre-commit" in
  script <-- ilift (render_precommit_script joinpath resolve str archive) ;;
  iemit ILock ;;-
  iemit (IMkdir hooks_dir) ;;-
  iemit (IWriteText hook_path script) ;;-
  iemit (IChmod hook_path 493) ;;-
  iemit IUnlock ;;-
  iret hook_path.

(** [install_prepush_guard] (lines 313-348) *)
Definition install_prepush_guard (settings : Settings) (project_slug : string)
    (repo_path : Path) : inst Path :=
  iemit (IEnsureArchive project_slug) ;;-
  let archive := ensure_archive h settings project_slug in
  hooks_dir <-- _resolve_hooks_dir repo_path ;;
  iemit (IMkdir hooks_dir) ;;-
  let hook_path := joinpath hooks_dir "pre-push" in
  script <-- ilift (render_prepush_script joinpath resolve str archive) ;;
  iemit ILock ;;-
  iemit (IWriteText hook_path script) ;;-
  iemit (IChmod hook_path 493) ;;-
  iemit IUnlock ;;-
  iret hook_path.

(** [uninstall_guard] (lines 351-358): only the conventional path is
    looked at. *)
Definition uninstall_guard (repo_path : Path) : inst bool :=
  let hook_path := joinpath (joinpath (joinpath repo_path ".git") "hooks") "pre-commit" in
  there <-- exists_ hook_path ;;
  if there then iemit (IUnlink hook_path) ;;- iret true
  else iret false.

End Installer.

Arguments iret {Path A} a.
Arguments ibind {Path A B} m f.
Arguments iemit {Path} e.
Arguments ilift {Path A} r.
Arguments git_c {Path Settings} h cwd args.
Arguments path_exists {Path Settings} h p.
Arguments ensure_archive {Path Settings} h settings project_slug.
Arguments _git {Path Settings} h cwd args.
Arguments exists_ {Path Settings} h p.
Arguments _resolve_hooks_dir {Path Settings} mkpath joinpath joinpaths is_absolute str h repo.
Arguments install_guard {Path Settings} mkpath joinpath joinpaths is_absolute parent name
  resolve str h settings project_slug repo_path.
Arguments install_prepush_guard {Path Settings} mkpath joinpath joinpaths is_absolute
  resolve str h settings project_slug repo_path.
Arguments uninstall_guard {Path Settings} joinpath h repo_path.

(** Events that change a file or take the lock. *)
Definition writes {Path : Type} (e : ievent Path) : bool :=
  match e with
  | ILock | IWriteText _ _ | IChmod _ _ | IUnlock | IUnlink _ => true
  | _ => false
  end.

(** *** A checkout for the examples of the installer *)

Module Checkout.

(** Paths as their text, with POSIX separators. *)
Definition joinpath (p : string) (name : string) : string := p ++ "/" ++ name.

Definition is_absolute (p : string) : bool := startswith "/" p.

Definition joinpaths (p q : string) : string :=
  if is_absolute q then q else joinpath p q.

(** The text after the last slash, and the text before it. *)
Fixpoint last_component (acc : string) (s : string) : string :=
  match s with
  | EmptyString => PyStr.rev acc
  | String c r =>
      if Ascii.eqb c "/"%char then last_component EmptyString r
      else last_component (String c acc) r
  end.

Definition name (p : string) : string := last_component EmptyString p.

Definition parent (p : string) : string :=
  substring 0 (String.length p - String.length (name p) - 1) p.

(** A checkout whose [core.hooksPath] is [.githooks]. *)
Definition with_hooks_path : Host string unit :=
  {| git_c := fun cwd args =>
       if Scenario.args_eqb args ["config"; "--get"; "core.hooksPath"]
       then Some (".githooks" ++ nl)
       else if Scenario.args_eqb args ["rev-parse"; "--show-toplevel"]
       then Some ("/work/repo" ++ nl)
       else if Scenario.args_eqb args ["rev-parse"; "--git-dir"]
       then Some (".git" ++ nl)
       else None;
     path_exists := fun p => String.eqb p "/work/repo";
     ensure_archive := fun _ _ => Scenario.demo_archive |}.

(** A linked working tree: no hooks path configured, and a git
    directory of its own. *)
Definition linked_worktree : Host string unit :=
  {| git_c := fun cwd args =>
       if Scenario.args_eqb args ["rev-parse"; "--git-dir"]
       then Some ("/work/repo/.git/worktrees/wt" ++ nl)
       else None;
     path_exists := fun _ => true;
     ensure_archive := fun _ _ => Scenario.demo_archive |}.

(** A machine without the version-control tool. *)
Definition without_git : Host string unit :=
  {| git_c := fun _ _ => None;
     path_exists := fun p => String.eqb p "/work/repo/.git/hooks/pre-commit";
     ensure_archive := fun _ _ => Scenario.demo_archive |}.

End Checkout.

(** ** The string methods on examples *)

Example strip_ex : strip ("  Warn " ++ nl) = "Warn".
Proof. reflexivity. Qed.
Example lower_ex : lower "YeS" = "yes".
Proof. reflexivity. Qed.
Example splitlines_ex :
  splitlines ("a" ++ nl ++ nl ++ "b" ++ nl) = ["a"; EmptyString; "b"].
Proof. reflexivity. Qed.
Example split_ws_ex : split_ws " r1  aa r2 00 " = ["r1"; "aa"; "r2"; "00"].
Proof. reflexivity. Qed.
Example nul_fields_ex :
  nul_fields (String "a" (String NUL (String NUL (String "b" (String NUL EmptyString)))))
  = ["a"; "b"].
Proof. reflexivity. Qed.


(** ** The model on the scenarios of the specification *)

Section ScenarioChecks.

Import Concrete Scenario.

(** Scenario A: exactly one conflict for the staged path, exit 1. *)
Example scenario_A_body :
  precommit_body pylib "A" t0 one_path held_by_B
  = Ok [("src/shared.txt", JStr "B", "src/shared.txt")].
Proof. vm_compute. reflexivity. Qed.

Example scenario_A_commit : outcome_of (precommit_script pylib scenario_A) = Exit 1.
Proof. vm_compute. reflexivity. Qed.

Example scenario_A_push : outcome_of (prepush_script pylib scenario_A) = Exit 1.
Proof. vm_compute. reflexivity. Qed.

(** Scenario B: the holder itself commits, exit 0. *)
Example scenario_B_commit :
  precommit_script pylib scenario_B
  = ([DirExists; GitRun NAME_ONLY; GitRun NAME_STATUS; DirGlob; ReadText "lock.json"],
     Exit 0).
Proof. vm_compute. reflexivity. Qed.

(** Scenario C: no reservation directory, exit 0 before any
    invocation. *)
Example scenario_C_commit :
  precommit_script pylib (with_reservations None scenario_A) = ([DirExists], Exit 0).
Proof. vm_compute. reflexivity. Qed.

End ScenarioChecks.

(** ** Laws of the script monad *)

Lemma bind_ret_l {A B} (a : A) (f : A -> script B) : bind (ret a) f = f a.
Proof. unfold bind, ret. destruct (f a) as [t r]. reflexivity. Qed.

Lemma bind_assoc {A B C} (m : script A) (f : A -> script B) (g : B -> script C) :
  bind (bind m f) g = bind m (fun a => bind (f a) g).
Proof.
  destruct m as [t [a | o]]; simpl; [| reflexivity].
  destruct (f a) as [t1 [b | o]]; simpl; [| reflexivity].
  destruct (g b) as [t2 r]. now rewrite app_assoc.
Qed.

Lemma bind_ext {A B} (m : script A) (f g : A -> script B) :
  (forall a, f a = g a) -> bind m f = bind m g.
Proof.
  intros H. destruct m as [t [a | o]]; simpl; [| reflexivity].
  now rewrite H.
Qed.

Lemma step_of_bind {A B} (m : script A) (f : A -> script B) :
  snd (bind m f) = match snd m with
                   | Next a => snd (f a)
                   | Halt o => Halt o
                   end.
Proof.
  destruct m as [t [a | o]]; simpl; [| reflexivity].
  now destruct (f a).
Qed.

Lemma trace_of_bind {A B} (m : script A) (f : A -> script B) :
  fst (bind m f) = match snd m with
                   | Next a => (fst m ++ fst (f a))%list
                   | Halt _ => fst m
                   end.
Proof.
  destruct m as [t [a | o]]; simpl; [| reflexivity].
  now destruct (f a).
Qed.

Lemma emit_all_spec (es : list event) : emit_all es = (es, Next tt).
Proof.
  induction es as [| e es IH]; [reflexivity |].
  simpl. rewrite IH. reflexivity.
Qed.

(** What the verdict block does with a given conflict list. *)
Lemma report_nonempty (h a b : string) (adv : bool) (c : conflict) (cs : list conflict) :
  report h a b adv (c :: cs)
  = ((Stderr h :: map StderrConflict (c :: cs)) ++ [Stderr (if adv then a else b)],
     Halt (Exit (if adv then 0 else 1)))%list.
Proof.
  unfold report. rewrite emit_all_spec. destruct adv; reflexivity.
Qed.

(** ** The scan over the reservation directory *)

Lemma bind_emit {B} (e : event) (k : script B) :
  bind (emit e) (fun _ => k) = (e :: fst k, snd k).
Proof. unfold bind, emit. now destruct k. Qed.

Lemma bind_cons {A B} (e : event) (m : script A) (f : A -> script B) :
  bind (e :: fst m, snd m) f = (e :: fst (bind m f), snd (bind m f)).
Proof.
  destruct m as [t [a | o]]; simpl; [| reflexivity].
  now destruct (f a).
Qed.

Lemma scan_app (body : json -> res (list conflict)) (pre post : list dir_entry)
    (acc : list conflict) :
  scan body (pre ++ post) acc = (acc' <- scan body pre acc ;; scan body post acc').
Proof.
  revert acc. induction pre as [| [name content] pre IH]; intros acc.
  - cbn [app scan]. now rewrite bind_ret_l.
  - cbn [app scan]. rewrite !bind_emit, bind_cons. 
    destruct content as [data |]; [| now rewrite IH].
    destruct (body data) as [found | e]; cbn [lift].
    + rewrite !bind_ret_l. now rewrite IH.
    + reflexivity.
Qed.

(** A candidate whose body adds nothing, and a candidate that did not
    parse, leave the result of the scan as it is without them. *)
Lemma scan_skip (body : json -> res (list conflict)) (pre post : list dir_entry)
    (name : string) (r : json) (acc : list conflict) :
  body r = Ok [] ->
  snd (scan body (pre ++ (name, Some r) :: post) acc) = snd (scan body (pre ++ post) acc).
Proof.
  intros Hr. rewrite !scan_app, !step_of_bind.
  destruct (snd (scan body pre acc)) as [acc' | o]; [| reflexivity].
  cbn [scan]. rewrite bind_emit, Hr. cbn [lift snd].
  now rewrite bind_ret_l, app_nil_r.
Qed.

Lemma scan_unparsed (body : json -> res (list conflict)) (pre post : list dir_entry)
    (name : string) (acc : list conflict) :
  snd (scan body (pre ++ (name, None) :: post) acc) = snd (scan body (pre ++ post) acc).
Proof.
  rewrite !scan_app, !step_of_bind.
  destruct (snd (scan body pre acc)) as [acc' | o]; [| reflexivity].
  cbn [scan]. now rewrite bind_emit.
Qed.

Lemma load_unparsed (pre post : list dir_entry) (name : string) :
  load_file_reservations (pre ++ (name, None) :: post) = load_file_reservations (pre ++ post).
Proof.
  induction pre as [| [n [d |]] pre IH]; cbn [app load_file_reservations]; congruence.
Qed.

(** ** Records: fields, and what one record adds *)

Lemma assoc_remove_other (k k' : string) (items : list (string * json)) :
  String.eqb k k' = false -> assoc k (remove_key k' items) = assoc k items.
Proof.
  intros Hk. induction items as [| [k0 v] items IH]; [reflexivity |].
  cbn [remove_key assoc]. destruct (String.eqb k' k0) eqn:E.
  - apply String.eqb_eq in E. subst k0. now rewrite Hk.
  - cbn [assoc]. now rewrite IH.
Qed.

Lemma assoc_remove_same (k : string) (items : list (string * json)) :
  assoc k (remove_key k items) = None.
Proof.
  induction items as [| [k0 v] items IH]; [reflexivity |].
  cbn [remove_key]. destruct (String.eqb k k0) eqn:E; [assumption |].
  cbn [assoc]. now rewrite E.
Qed.

Lemma field_dict (k : string) (r v : json) :
  field k r = Some v -> exists items, r = JObj items /\ assoc k items = Some v.
Proof. destruct r; cbn; try discriminate. eauto. Qed.

Section Records.

Variable lib : PyLib.
Variables (agent_name : string) (now : Z) (paths : list string).

Lemma precommit_body_self (r : json) :
  field "agent" r = Some (JStr agent_name) ->
  precommit_body lib agent_name now paths r = Ok [].
Proof.
  intros H. apply field_dict in H as (items & -> & H).
  unfold precommit_body, dict_get, dict_get_default. cbn [res_bind].
  rewrite H. cbn [eq_str]. now rewrite String.eqb_refl.
Qed.

Lemma prepush_body_self (r : json) :
  field "agent" r = Some (JStr agent_name) ->
  prepush_body lib agent_name now paths r = Ok [].
Proof.
  intros H. apply field_dict in H as (items & -> & H).
  unfold prepush_body, dict_get, dict_get_default. cbn [res_bind].
  rewrite H. cbn [eq_str]. now rewrite String.eqb_refl.
Qed.

Lemma prepush_body_nonexclusive (r : json) :
  field "exclusive" r = Some (JBool false) ->
  prepush_body lib agent_name now paths r = Ok [].
Proof.
  intros H. apply field_dict in H as (items & -> & H).
  unfold prepush_body, dict_get, dict_get_default. cbn [res_bind].
  rewrite H. cbn [truthy negb]. now destruct (eq_str _ _).
Qed.

(** A record whose expiry test does not reach [continue] is dealt
    with like the record without the field. *)
Lemma precommit_body_live (r e : json) :
  field "expires_ts" r = Some e -> expired lib now e = false ->
  precommit_body lib agent_name now paths r
  = precommit_body lib agent_name now paths (without "expires_ts" r).
Proof.
  intros H He. apply field_dict in H as (items & -> & H).
  unfold precommit_body, dict_get, dict_get_default, without. cbn [res_bind].
  rewrite (assoc_remove_other "agent" "expires_ts") by reflexivity.
  rewrite (assoc_remove_other "path_pattern" "expires_ts") by reflexivity.
  rewrite assoc_remove_same, H, He. reflexivity.
Qed.

Lemma prepush_body_live (r e : json) :
  field "expires_ts" r = Some e -> expired lib now e = false ->
  prepush_body lib agent_name now paths r
  = prepush_body lib agent_name now paths (without "expires_ts" r).
Proof.
  intros H He. apply field_dict in H as (items & -> & H).
  unfold prepush_body, dict_get, dict_get_default, without. cbn [res_bind].
  rewrite (assoc_remove_other "agent" "expires_ts") by reflexivity.
  rewrite (assoc_remove_other "exclusive" "expires_ts") by reflexivity.
  rewrite (assoc_remove_other "path_pattern" "expires_ts") by reflexivity.
  rewrite assoc_remove_same, H, He. reflexivity.
Qed.

Lemma precommit_body_expired (r e : json) :
  field "expires_ts" r = Some e -> expired lib now e = true ->
  precommit_body lib agent_name now paths r = Ok [].
Proof.
  intros H He. apply field_dict in H as (items & -> & H).
  unfold precommit_body, dict_get, dict_get_default. cbn [res_bind].
  rewrite H, He. now destruct (eq_str _ _).
Qed.

Lemma prepush_body_expired (r e : json) :
  field "expires_ts" r = Some e -> expired lib now e = true ->
  prepush_body lib agent_name now paths r = Ok [].
Proof.
  intros H He. apply field_dict in H as (items & -> & H).
  unfold prepush_body, dict_get, dict_get_default. cbn [res_bind].
  rewrite H, He. destruct (eq_str _ _); [reflexivity |].
  now destruct (negb _).
Qed.

Lemma expired_aware (s : string) (t : Z) :
  nonempty s = true -> fromisoformat lib s = Some (Aware t) ->
  expired lib now (JStr s) = (t <? now).
Proof.
  intros Hs Hp. unfold expired. cbn [truthy]. now rewrite Hs, Hp.
Qed.

Lemma expired_unparsable (e : json) :
  (forall s, e = JStr s -> fromisoformat lib s = None) ->
  expired lib now e = false.
Proof.
  intros H. unfold expired. destruct (truthy e); [| reflexivity].
  destruct e; try reflexivity. now rewrite (H s eq_refl).
Qed.

End Records.

(** ** Properties of the evaluators *)

(** C3: a record with [exclusive] false is left out by the push-time
    evaluator (its body ends at [continue], and the scan gives the same
    conflicts with or without it) and is kept by the commit-time one:
    for one acting agent, path list and snapshot it gives a conflict at
    commit time and none at push time. *)
Theorem nonexclusive_phase_asymmetry :
  (forall (lib : PyLib) (agent_name : string) (now : Z) (changed : list string) (r : json),
      field "exclusive" r = Some (JBool false) ->
      prepush_body lib agent_name now changed r = Ok [] /\
      (forall pre post name acc,
          snd (scan (prepush_body lib agent_name now changed) (pre ++ (name, Some r) :: post) acc)
          = snd (scan (prepush_body lib agent_name now changed) (pre ++ post) acc)))
  /\
  (exists (lib : PyLib) (agent_name : string) (now : Z) (paths : list string) (r : json)
          (c : conflict),
      field "exclusive" r = Some (JBool false) /\
      precommit_body lib agent_name now paths r = Ok [c] /\
      prepush_body lib agent_name now paths r = Ok [])
  /\
  (exists (lib : PyLib) (w : World),
      reservations w = Some [("lock.json", Some Scenario.shared_B)] /\
      outcome_of (precommit_script lib w) = Exit 1 /\
      outcome_of (prepush_script lib w) = Exit 0).
Proof.
  split; [| split].
  - intros lib agent_name now changed r H.
    pose proof (prepush_body_nonexclusive lib agent_name now changed r H) as Hp.
    split; trivial. intros. now apply scan_skip.
  - exists Concrete.pylib, "A"%string, Scenario.t0, Scenario.one_path, Scenario.shared_B,
      ("src/shared.txt"%string, JStr "B", "src/shared.txt"%string).
    vm_compute. repeat split.
  - exists Concrete.pylib, Scenario.shared_world. vm_compute. repeat split.
Qed.

Lemma nonexclusive_phase_asymmetry_witness :
  prepush_body Concrete.pylib "A" Scenario.t0 Scenario.one_path Scenario.shared_B = Ok [].
Proof.
  exact (proj1 (proj1 nonexclusive_phase_asymmetry Concrete.pylib "A"%string Scenario.t0
                  Scenario.one_path Scenario.shared_B eq_refl)).
Defined.

(** C4, as the code has it: the expiry test is [expires_dt < now].  A
    record whose [expires_ts] parses to an aware timestamp strictly
    before the current time is skipped by both evaluators; one whose
    timestamp equals the current time (or lies after it) is not
    expired, and is dealt with like the same record without the
    field. *)
Theorem expiry_is_strictly_before_now :
  forall (lib : PyLib) (agent_name : string) (now : Z) (paths : list string) (r : json)
         (s : string) (t : Z),
    field "expires_ts" r = Some (JStr s) ->
    nonempty s = true ->
    fromisoformat lib s = Some (Aware t) ->
    (t < now ->
       precommit_body lib agent_name now paths r = Ok [] /\
       prepush_body lib agent_name now paths r = Ok [])
    /\
    (now <= t ->
       precommit_body lib agent_name now paths r
       = precommit_body lib agent_name now paths (without "expires_ts" r) /\
       prepush_body lib agent_name now paths r
       = prepush_body lib agent_name now paths (without "expires_ts" r)).
Proof.
  intros lib agent_name now paths r s t Hf Hs Hp.
  pose proof (expired_aware lib now s t Hs Hp) as He.
  split; intros Ht.
  - assert (expired lib now (JStr s) = true) as E by (rewrite He; lia).
    split; [eapply precommit_body_expired | eapply prepush_body_expired]; eassumption.
  - assert (expired lib now (JStr s) = false) as E by (rewrite He; lia).
    split; [eapply precommit_body_live | eapply prepush_body_live]; eassumption.
Qed.

Lemma expiry_is_strictly_before_now_witness :
  precommit_body Concrete.pylib "A" Scenario.t0 Scenario.one_path Scenario.expiring_now_B
  = precommit_body Concrete.pylib "A" Scenario.t0 Scenario.one_path
      (without "expires_ts" Scenario.expiring_now_B)
  /\
  precommit_body Concrete.pylib "A" Scenario.t0 Scenario.one_path Scenario.expired_B = Ok [].
Proof.
  split.
  - apply (proj2 (expiry_is_strictly_before_now Concrete.pylib "A" Scenario.t0
                    Scenario.one_path Scenario.expiring_now_B
                    "2025-01-01T00:00:00+00:00" Scenario.t0 eq_refl eq_refl eq_refl)).
    unfold Scenario.t0. lia.
  - apply (proj1 (expiry_is_strictly_before_now Concrete.pylib "A" Scenario.t0
                    Scenario.one_path Scenario.expired_B
                    "2024-12-31T23:59:59+00:00" (Scenario.t0 - 1000000)
                    eq_refl eq_refl eq_refl)).
    unfold Scenario.t0. lia.
Defined.

(** C4 as stated fails: with [expires_ts] equal to the current time the
    record is not skipped; it gives a conflict in both evaluators. *)
Lemma expiry_equal_to_now_still_conflicts :
  field "expires_ts" Scenario.expiring_now_B = Some (JStr "2025-01-01T00:00:00+00:00") /\
  fromisoformat Concrete.pylib "2025-01-01T00:00:00+00:00" = Some (Aware Scenario.t0) /\
  precommit_body Concrete.pylib "A" Scenario.t0 Scenario.one_path Scenario.expiring_now_B
  = Ok [("src/shared.txt", JStr "B", "src/shared.txt")] /\
  prepush_body Concrete.pylib "A" Scenario.t0 Scenario.one_path Scenario.expiring_now_B
  = Ok [("src/shared.txt", JStr "B", "src/shared.txt")].
Proof. vm_compute. repeat split. Qed.

(** C5: a record whose [expires_ts] is present but cannot be parsed (a
    string [fromisoformat] rejects, or a value that is no string) is not
    expired for either evaluator: it is dealt with like the same record
    without the field, and so can still give conflicts; a candidate
    file that does not parse as a whole is dropped from the scan and
    from the snapshot. *)
Theorem unparsable_expiry_fails_closed :
  (forall (lib : PyLib) (agent_name : string) (now : Z) (paths : list string) (r e : json),
      field "expires_ts" r = Some e ->
      (forall s, e = JStr s -> fromisoformat lib s = None) ->
      precommit_body lib agent_name now paths r
      = precommit_body lib agent_name now paths (without "expires_ts" r) /\
      prepush_body lib agent_name now paths r
      = prepush_body lib agent_name now paths (without "expires_ts" r))
  /\
  (exists (lib : PyLib) (agent_name : string) (now : Z) (paths : list string) (r : json)
          (s : string) (c : conflict),
      field "expires_ts" r = Some (JStr s) /\ fromisoformat lib s = None /\
      precommit_body lib agent_name now paths r = Ok [c] /\
      prepush_body lib agent_name now paths r = Ok [c])
  /\
  (forall (body : json -> res (list conflict)) (pre post : list dir_entry) (name : string)
          (acc : list conflict),
      snd (scan body (pre ++ (name, None) :: post) acc) = snd (scan body (pre ++ post) acc) /\
      load_file_reservations (pre ++ (name, None) :: post)
      = load_file_reservations (pre ++ post)).
Proof.
  split; [| split].
  - intros lib agent_name now paths r e Hf Hu.
    pose proof (expired_unparsable lib now e Hu) as He.
    split; [eapply precommit_body_live | eapply prepush_body_live]; eassumption.
  - exists Concrete.pylib, "A"%string, Scenario.t0, Scenario.one_path, Scenario.bad_expiry_B,
      "next tuesday"%string, ("src/shared.txt"%string, JStr "B", "src/shared.txt"%string).
    vm_compute. repeat split.
  - intros. split; [apply scan_unparsed | apply load_unparsed].
Qed.

Lemma unparsable_expiry_fails_closed_witness :
  precommit_body Concrete.pylib "A" Scenario.t0 Scenario.one_path Scenario.bad_expiry_B
  = precommit_body Concrete.pylib "A" Scenario.t0 Scenario.one_path
      (without "expires_ts" Scenario.bad_expiry_B).
Proof.
  refine (proj1 (proj1 unparsable_expiry_fails_closed Concrete.pylib "A"%string Scenario.t0
                   Scenario.one_path Scenario.bad_expiry_B (JStr "next tuesday") eq_refl _)).
  intros s Hs. injection Hs as <-. reflexivity.
Defined.

(** ** The gates in front of both scripts *)

Section Gates.

Variable lib : PyLib.
Variable w : World.

Lemma precommit_gate_off :
  gate_on w = false -> precommit_script lib w = ([], Exit 0).
Proof. intros H. unfold precommit_script. now rewrite H. Qed.

Lemma prepush_gate_off :
  gate_on w = false -> prepush_script lib w = ([], Exit 0).
Proof. intros H. unfold prepush_script. now rewrite H. Qed.

Lemma precommit_bypass :
  gate_on w = true -> bypass_on w = true ->
  precommit_script lib w = ([Stderr Note.precommit_bypass], Exit 0).
Proof. intros H H'. unfold precommit_script. now rewrite H, H'. Qed.

Lemma prepush_bypass :
  gate_on w = true -> bypass_on w = true ->
  prepush_script lib w = ([Stderr Note.prepush_bypass], Exit 0).
Proof. intros H H'. unfold prepush_script. now rewrite H, H'. Qed.

Lemma precommit_no_identity :
  gate_on w = true -> bypass_on w = false -> AGENT_NAME w = None ->
  precommit_script lib w = ([Stderr Note.precommit_identity], Exit 1).
Proof. intros H H' Ha. unfold precommit_script. now rewrite H, H', Ha. Qed.

Lemma prepush_no_identity :
  gate_on w = true -> bypass_on w = false -> AGENT_NAME w = None ->
  prepush_script lib w = ([Stderr Note.prepush_identity], Exit 1).
Proof. intros H H' Ha. unfold prepush_script. now rewrite H, H', Ha. Qed.

(** Past the gates a script is its findings followed by the verdict. *)
Lemma precommit_past_gates (agent_name : string) :
  gate_on w = true -> bypass_on w = false -> AGENT_NAME w = Some agent_name ->
  precommit_script lib w
  = finish (bind (precommit_findings lib agent_name w)
              (report Note.precommit_header Note.precommit_advisory
                 Note.precommit_blocking (ADVISORY w))).
Proof. intros H H' Ha. unfold precommit_script. now rewrite H, H', Ha. Qed.

Lemma prepush_past_gates (agent_name : string) :
  gate_on w = true -> bypass_on w = false -> AGENT_NAME w = Some agent_name ->
  prepush_script lib w
  = finish (bind (prepush_findings lib agent_name w)
              (report Note.prepush_header Note.prepush_advisory
                 Note.prepush_blocking (ADVISORY w))).
Proof. intros H H' Ha. unfold prepush_script. now rewrite H, H', Ha. Qed.

End Gates.

(** The verdict on a scan that found something. *)
Lemma finish_report (m : script (list conflict)) (h a b : string) (adv : bool)
    (c : conflict) (cs : list conflict) :
  snd m = Next (c :: cs) ->
  finish (bind m (report h a b adv))
  = ((fst m ++ (Stderr h :: map StderrConflict (c :: cs)) ++ [Stderr (if adv then a else b)])%list,
     Exit (if adv then 0 else 1)).
Proof.
  destruct m as [t r]. cbn [fst snd]. intros ->.
  unfold bind. rewrite report_nonempty. reflexivity.
Qed.

(** The findings do not depend on the environment. *)
Lemma precommit_findings_env (lib : PyLib) (agent_name name : string) (v : option string)
    (w : World) :
  precommit_findings lib agent_name (with_env name v w) = precommit_findings lib agent_name w.
Proof. reflexivity. Qed.

Lemma collect_commits_env (name : string) (v : option string) (w : World)
    (tuples : list (string * string * string * string)) :
  collect_commits (with_env name v w) tuples = collect_commits w tuples.
Proof.
  induction tuples as [| [[[local_ref local_sha] remote_ref] remote_sha] tuples IH];
    [reflexivity |].
  cbn [collect_commits]. now rewrite IH.
Qed.

Lemma collect_changed_env (name : string) (v : option string) (w : World)
    (commits : list string) :
  collect_changed (with_env name v w) commits = collect_changed w commits.
Proof.
  induction commits as [| c commits IH]; [reflexivity |].
  cbn [collect_changed]. now rewrite IH.
Qed.

Lemma prepush_findings_env (lib : PyLib) (agent_name name : string) (v : option string)
    (w : World) :
  prepush_findings lib agent_name (with_env name v w) = prepush_findings lib agent_name w.
Proof.
  unfold prepush_findings.
  apply bind_ext; intros present. destruct (negb present); [reflexivity |].
  apply bind_ext; intros _. rewrite collect_commits_env.
  apply bind_ext; intros commits. now rewrite collect_changed_env.
Qed.

Lemma ADVISORY_with_env (m : option string) (w : World) :
  ADVISORY (with_env "AGENT_MAIL_GUARD_MODE" m w)
  = match m with
    | Some s => mem (lower (strip (if nonempty s then s else "block"))) ADVISORY_MODES
    | None => false
    end.
Proof. destruct m; reflexivity. Qed.

(** ** Properties of the whole scripts *)

(** C6: on one conflicting input (gate on, bypass off, identity set,
    the scan found at least one conflict) each script exits 1 when the
    mode variable is unset or [block], and exits 0 after writing the
    conflict lines and the advisory note when it is [warn], [advisory]
    or [adv]. *)
Theorem mode_matrix :
  forall (lib : PyLib) (w : World) (agent_name : string),
    gate_on w = true -> bypass_on w = false -> AGENT_NAME w = Some agent_name ->
    (forall c cs,
        snd (precommit_findings lib agent_name w) = Next (c :: cs) ->
        (forall m, In m [None; Some "block"] ->
           outcome_of (precommit_script lib (with_env "AGENT_MAIL_GUARD_MODE" m w)) = Exit 1)
        /\
        (forall m, In m [Some "warn"; Some "advisory"; Some "adv"] ->
           let r := precommit_script lib (with_env "AGENT_MAIL_GUARD_MODE" m w) in
           outcome_of r = Exit 0 /\
           In (StderrConflict c) (trace_of r) /\
           In (Stderr Note.precommit_advisory) (trace_of r)))
    /\
    (forall c cs,
        snd (prepush_findings lib agent_name w) = Next (c :: cs) ->
        (forall m, In m [None; Some "block"] ->
           outcome_of (prepush_script lib (with_env "AGENT_MAIL_GUARD_MODE" m w)) = Exit 1)
        /\
        (forall m, In m [Some "warn"; Some "advisory"; Some "adv"] ->
           let r := prepush_script lib (with_env "AGENT_MAIL_GUARD_MODE" m w) in
           outcome_of r = Exit 0 /\
           In (StderrConflict c) (trace_of r) /\
           In (Stderr Note.prepush_advisory) (trace_of r))).
Proof.
  intros lib w agent_name Hg Hb Ha. split; intros c cs Hf.
  - assert (forall m,
               precommit_script lib (with_env "AGENT_MAIL_GUARD_MODE" m w)
               = ((fst (precommit_findings lib agent_name w)
                   ++ (Stderr Note.precommit_header :: map StderrConflict (c :: cs))
                   ++ [Stderr (if ADVISORY (with_env "AGENT_MAIL_GUARD_MODE" m w)
                               then Note.precommit_advisory else Note.precommit_blocking)])%list,
                  Exit (if ADVISORY (with_env "AGENT_MAIL_GUARD_MODE" m w) then 0 else 1)))
      as Hrun.
    { intros m.
      rewrite (precommit_past_gates lib (with_env "AGENT_MAIL_GUARD_MODE" m w) agent_name Hg Hb Ha).
      rewrite precommit_findings_env. now apply finish_report. }
    split; intros m Hm; rewrite Hrun, ADVISORY_with_env.
    + destruct Hm as [<- | [<- | []]]; reflexivity.
    + assert (match m with
              | Some s => mem (lower (strip (if nonempty s then s else "block"))) ADVISORY_MODES
              | None => false
              end = true) as ->
          by (destruct Hm as [<- | [<- | [<- | []]]]; reflexivity).
      cbn [outcome_of trace_of fst snd]. split; [reflexivity |].
      split; apply in_or_app; right.
      * right. apply in_or_app. left. now left.
      * right. apply in_or_app. right. now left.
  - assert (forall m,
               prepush_script lib (with_env "AGENT_MAIL_GUARD_MODE" m w)
               = ((fst (prepush_findings lib agent_name w)
                   ++ (Stderr Note.prepush_header :: map StderrConflict (c :: cs))
                   ++ [Stderr (if ADVISORY (with_env "AGENT_MAIL_GUARD_MODE" m w)
                               then Note.prepush_advisory else Note.prepush_blocking)])%list,
                  Exit (if ADVISORY (with_env "AGENT_MAIL_GUARD_MODE" m w) then 0 else 1)))
      as Hrun.
    { intros m.
      rewrite (prepush_past_gates lib (with_env "AGENT_MAIL_GUARD_MODE" m w) agent_name Hg Hb Ha).
      rewrite prepush_findings_env. now apply finish_report. }
    split; intros m Hm; rewrite Hrun, ADVISORY_with_env.
    + destruct Hm as [<- | [<- | []]]; reflexivity.
    + assert (match m with
              | Some s => mem (lower (strip (if nonempty s then s else "block"))) ADVISORY_MODES
              | None => false
              end = true) as ->
          by (destruct Hm as [<- | [<- | [<- | []]]]; reflexivity).
      cbn [outcome_of trace_of fst snd]. split; [reflexivity |].
      split; apply in_or_app; right.
      * right. apply in_or_app. left. now left.
      * right. apply in_or_app. right. now left.
Qed.

Lemma mode_matrix_witness :
  outcome_of (precommit_script Concrete.pylib
                (with_env "AGENT_MAIL_GUARD_MODE" None Scenario.scenario_A)) = Exit 1 /\
  outcome_of (precommit_script Concrete.pylib
                (with_env "AGENT_MAIL_GUARD_MODE" (Some "warn") Scenario.scenario_A)) = Exit 0 /\
  outcome_of (prepush_script Concrete.pylib
                (with_env "AGENT_MAIL_GUARD_MODE" (Some "block") Scenario.scenario_A)) = Exit 1 /\
  outcome_of (prepush_script Concrete.pylib
                (with_env "AGENT_MAIL_GUARD_MODE" (Some "adv") Scenario.scenario_A)) = Exit 0.
Proof.
  assert (gate_on Scenario.scenario_A = true) as Hg by (vm_compute; reflexivity).
  assert (bypass_on Scenario.scenario_A = false) as Hb by (vm_compute; reflexivity).
  assert (AGENT_NAME Scenario.scenario_A = Some "A") as Ha by (vm_compute; reflexivity).
  assert (snd (precommit_findings Concrete.pylib "A" Scenario.scenario_A)
          = Next [("src/shared.txt", JStr "B", "src/shared.txt");
                  ("src/shared.txt", JStr "B", "src/shared.txt")]) as Hfc
      by (vm_compute; reflexivity).
  assert (snd (prepush_findings Concrete.pylib "A" Scenario.scenario_A)
          = Next [("src/shared.txt", JStr "B", "src/shared.txt")]) as Hfp
      by (vm_compute; reflexivity).
  destruct (mode_matrix Concrete.pylib Scenario.scenario_A "A" Hg Hb Ha) as [Hc Hp].
  destruct (Hc _ _ Hfc) as [Hc1 Hc0].
  destruct (Hp _ _ Hfp) as [Hp1 Hp0].
  split; [| split; [| split]].
  - exact (Hc1 None (or_introl eq_refl)).
  - exact (proj1 (Hc0 (Some "warn") (or_introl eq_refl))).
  - exact (Hp1 (Some "block") (or_intror (or_introl eq_refl))).
  - exact (proj1 (Hp0 (Some "adv") (or_intror (or_intror (or_introl eq_refl))))).
Defined.

(** C8: when the enable gate is off or the bypass variable is truthy,
    both scripts exit 0 before anything of the reservation directory is
    looked at: the whole run (events and exit code) is the same for any
    two contents of the directory, no event touches the directory
    (existence test, listing, reading a file) and no conflict is
    reported. *)
Theorem bypass_or_gate_off_short_circuits :
  forall (lib : PyLib) (w : World),
    gate_on w = false \/ bypass_on w = true ->
    forall d1 d2 : option (list dir_entry),
      precommit_script lib (with_reservations d1 w)
      = precommit_script lib (with_reservations d2 w) /\
      prepush_script lib (with_reservations d1 w)
      = prepush_script lib (with_reservations d2 w) /\
      outcome_of (precommit_script lib (with_reservations d1 w)) = Exit 0 /\
      outcome_of (prepush_script lib (with_reservations d1 w)) = Exit 0 /\
      Forall (fun e => touches_reservations e = false /\ reports_conflict e = false)
             (trace_of (precommit_script lib (with_reservations d1 w))) /\
      Forall (fun e => touches_reservations e = false /\ reports_conflict e = false)
             (trace_of (prepush_script lib (with_reservations d1 w))).
Proof.
  intros lib w H d1 d2.
  destruct (gate_on w) eqn:Hg.
  - destruct H as [H | Hb]; [discriminate |].
    rewrite !(precommit_bypass lib (with_reservations _ w) Hg Hb).
    rewrite !(prepush_bypass lib (with_reservations _ w) Hg Hb).
    repeat split; repeat constructor.
  - rewrite !(precommit_gate_off lib (with_reservations _ w) Hg).
    rewrite !(prepush_gate_off lib (with_reservations _ w) Hg).
    repeat split; repeat constructor.
Qed.

Lemma bypass_or_gate_off_short_circuits_witness :
  precommit_script Concrete.pylib
    (with_reservations (Some [("lock.json", Some Scenario.held_by_B)])
       (with_env "AGENT_MAIL_BYPASS" (Some " Yes ") Scenario.scenario_A))
  = precommit_script Concrete.pylib
      (with_reservations None
         (with_env "AGENT_MAIL_BYPASS" (Some " Yes ") Scenario.scenario_A)).
Proof.
  assert (bypass_on (with_env "AGENT_MAIL_BYPASS" (Some " Yes ") Scenario.scenario_A) = true)
    as Hb by (vm_compute; reflexivity).
  exact (proj1 (bypass_or_gate_off_short_circuits Concrete.pylib
                  (with_env "AGENT_MAIL_BYPASS" (Some " Yes ") Scenario.scenario_A)
                  (or_intror Hb)
                  (Some [("lock.json", Some Scenario.held_by_B)]) None)).
Defined.

(** C10: in both scripts the gate and the bypass come before the
    identity test.  With the gate off or the bypass truthy the script
    exits 0 whatever the identity variable holds (unset and empty
    included); with the identity missing, the exit code is 1 exactly
    when the gate is on and the bypass is off, and the run is then the
    identity note followed by exit 1. *)
Theorem gate_and_bypass_precede_identity :
  forall (lib : PyLib) (w : World),
    (gate_on w = false \/ bypass_on w = true ->
     forall v : option string,
       outcome_of (precommit_script lib (with_env "AGENT_NAME" v w)) = Exit 0 /\
       outcome_of (prepush_script lib (with_env "AGENT_NAME" v w)) = Exit 0)
    /\
    (AGENT_NAME w = None ->
     (outcome_of (precommit_script lib w) = Exit 1
      <-> gate_on w = true /\ bypass_on w = false) /\
     (outcome_of (prepush_script lib w) = Exit 1
      <-> gate_on w = true /\ bypass_on w = false) /\
     (gate_on w = true -> bypass_on w = false ->
      precommit_script lib w = ([Stderr Note.precommit_identity], Exit 1) /\
      prepush_script lib w = ([Stderr Note.prepush_identity], Exit 1))).
Proof.
  intros lib w. split.
  - intros H v.
    destruct (gate_on w) eqn:Hg.
    + destruct H as [H | Hb]; [discriminate |].
      rewrite (precommit_bypass lib (with_env "AGENT_NAME" v w) Hg Hb).
      rewrite (prepush_bypass lib (with_env "AGENT_NAME" v w) Hg Hb).
      split; reflexivity.
    + rewrite (precommit_gate_off lib (with_env "AGENT_NAME" v w) Hg).
      rewrite (prepush_gate_off lib (with_env "AGENT_NAME" v w) Hg).
      split; reflexivity.
  - intros Ha.
    destruct (gate_on w) eqn:Hg; [destruct (bypass_on w) eqn:Hb |].
    + rewrite (precommit_bypass lib w Hg Hb), (prepush_bypass lib w Hg Hb).
      cbn [outcome_of snd].
      repeat split; try discriminate; intros [_ H]; discriminate.
    + rewrite (precommit_no_identity lib w Hg Hb Ha), (prepush_no_identity lib w Hg Hb Ha).
      repeat split; reflexivity.
    + rewrite (precommit_gate_off lib w Hg), (prepush_gate_off lib w Hg).
      cbn [outcome_of snd].
      repeat split; try discriminate; intros [H _]; discriminate.
Qed.

Lemma gate_and_bypass_precede_identity_witness :
  (outcome_of (precommit_script Concrete.pylib
                 (with_env "AGENT_NAME" None
                    (with_env "WORKTREES_ENABLED" (Some "0") Scenario.scenario_A))) = Exit 0 /\
   outcome_of (prepush_script Concrete.pylib
                 (with_env "AGENT_NAME" None
                    (with_env "WORKTREES_ENABLED" (Some "0") Scenario.scenario_A))) = Exit 0)
  /\
  (precommit_script Concrete.pylib (with_env "AGENT_NAME" (Some EmptyString) Scenario.scenario_A)
   = ([Stderr Note.precommit_identity], Exit 1) /\
   prepush_script Concrete.pylib (with_env "AGENT_NAME" (Some EmptyString) Scenario.scenario_A)
   = ([Stderr Note.prepush_identity], Exit 1)).
Proof.
  assert (gate_on (with_env "WORKTREES_ENABLED" (Some "0") Scenario.scenario_A) = false)
    as Hg by (vm_compute; reflexivity).
  assert (AGENT_NAME (with_env "AGENT_NAME" (Some EmptyString) Scenario.scenario_A) = None)
    as Ha by (vm_compute; reflexivity).
  assert (gate_on (with_env "AGENT_NAME" (Some EmptyString) Scenario.scenario_A) = true)
    as Hg' by (vm_compute; reflexivity).
  assert (bypass_on (with_env "AGENT_NAME" (Some EmptyString) Scenario.scenario_A) = false)
    as Hb' by (vm_compute; reflexivity).
  split.
  - exact (proj1 (gate_and_bypass_precede_identity Concrete.pylib
                    (with_env "WORKTREES_ENABLED" (Some "0") Scenario.scenario_A))
             (or_introl Hg) None).
  - exact (proj2 (proj2 (proj2 (gate_and_bypass_precede_identity Concrete.pylib
                                  (with_env "AGENT_NAME" (Some EmptyString) Scenario.scenario_A))
                           Ha)) Hg' Hb').
Defined.

(** ** Staged paths when an invocation fails *)

Lemma staged_paths_first_fails (w : World) :
  git w NAME_ONLY = None -> staged_paths w = ([GitRun NAME_ONLY], Next []).
Proof. intros H. unfold staged_paths, run_git. cbn. now rewrite H. Qed.

Lemma staged_paths_second_fails (w : World) (data : string) :
  git w NAME_ONLY = Some data -> git w NAME_STATUS = None ->
  staged_paths w = ([GitRun NAME_ONLY; GitRun NAME_STATUS], Next (nul_fields data)).
Proof. intros H H'. unfold staged_paths, run_git. cbn. rewrite H. cbn. now rewrite H'. Qed.

(** C9, as the code has it: one [try] spans both invocations and the
    paths are appended as they come.  If the first invocation (the
    name-only listing) fails, the path list is empty and the script,
    once past the identity test, exits 0 without listing or reading the
    reservation directory.  If the first succeeds and only the second
    (the rename listing) fails, the paths of the first are kept. *)
Theorem staged_paths_on_failure :
  forall (lib : PyLib) (w : World),
    (git w NAME_ONLY = None ->
     snd (staged_paths w) = Next [] /\
     forall agent_name, AGENT_NAME w = Some agent_name ->
       outcome_of (precommit_script lib w) = Exit 0 /\
       Forall (fun e => loads_snapshot e = false /\ reports_conflict e = false)
              (trace_of (precommit_script lib w)))
    /\
    (forall data, git w NAME_ONLY = Some data -> git w NAME_STATUS = None ->
                  snd (staged_paths w) = Next (nul_fields data)).
Proof.
  intros lib w. split.
  - intros H. split; [now rewrite staged_paths_first_fails |].
    intros agent_name Ha.
    destruct (gate_on w) eqn:Hg; [destruct (bypass_on w) eqn:Hb |].
    + rewrite (precommit_bypass lib w Hg Hb). split; repeat constructor.
    + rewrite (precommit_past_gates lib w agent_name Hg Hb Ha).
      unfold precommit_findings, dir_exists.
      rewrite staged_paths_first_fails by assumption.
      destruct (reservations w); cbn; split; repeat constructor.
    + rewrite (precommit_gate_off lib w Hg). split; repeat constructor.
  - intros data H H'. now rewrite (staged_paths_second_fails w data).
Qed.

Lemma staged_paths_on_failure_witness :
  snd (staged_paths Scenario.status_fails) = Next (nul_fields ("src/shared.txt" ++ Scenario.z))
  /\
  outcome_of (precommit_script Concrete.pylib Scenario.rev_list_fails) = Exit 0.
Proof.
  assert (git Scenario.status_fails NAME_ONLY = Some ("src/shared.txt" ++ Scenario.z))
    as H1 by (vm_compute; reflexivity).
  assert (git Scenario.status_fails NAME_STATUS = None) as H2 by (vm_compute; reflexivity).
  assert (git Scenario.rev_list_fails NAME_ONLY = None) as H3 by (vm_compute; reflexivity).
  assert (AGENT_NAME Scenario.rev_list_fails = Some "A") as H4 by (vm_compute; reflexivity).
  split.
  - exact (proj2 (staged_paths_on_failure Concrete.pylib Scenario.status_fails) _ H1 H2).
  - exact (proj1 (proj2 (proj1 (staged_paths_on_failure Concrete.pylib Scenario.rev_list_fails)
                           H3) "A" H4)).
Defined.

(** C9 as stated fails: the second invocation fails, yet the path list
    holds the staged path, the reservation file is read, and the commit
    is refused. *)
Lemma rename_listing_failure_keeps_paths :
  git Scenario.status_fails NAME_ONLY = Some ("src/shared.txt" ++ Scenario.z) /\
  git Scenario.status_fails NAME_STATUS = None /\
  snd (staged_paths Scenario.status_fails) = Next ["src/shared.txt"] /\
  precommit_script Concrete.pylib Scenario.status_fails
  = ([DirExists; GitRun NAME_ONLY; GitRun NAME_STATUS; DirGlob; ReadText "lock.json";
      Stderr Note.precommit_header;
      StderrConflict ("src/shared.txt", JStr "B", "src/shared.txt");
      Stderr Note.precommit_blocking],
     Exit 1).
Proof. vm_compute. repeat split. Qed.

(** ** The rendering functions *)

Lemma string_app_assoc (a b c : string) : (a ++ b) ++ c = a ++ (b ++ c).
Proof. induction a as [| x a IH]; cbn; [reflexivity | now rewrite IH]. Qed.

Lemma contains_app_r (x h t : string) : contains x h -> contains x (h ++ t).
Proof.
  intros (before & after & ->). exists before, (after ++ t).
  now rewrite !string_app_assoc.
Qed.

Lemma contains_app_l (x h t : string) : contains x t -> contains x (h ++ t).
Proof.
  intros (before & after & ->). exists (h ++ before), after.
  now rewrite !string_app_assoc.
Qed.

Lemma contains_self (x : string) : contains x x.
Proof.
  exists EmptyString, EmptyString. cbn.
  induction x as [| c x IH]; cbn; [reflexivity | now rewrite <- IH].
Qed.

(** Every line of the list is part of the joined text. *)
Lemma join_lines_contains (x : string) (xs : list string) :
  In x xs -> contains x (join_lines xs).
Proof.
  induction xs as [| y xs IH]; [intros [] |].
  intros [-> | H].
  - destruct xs; cbn [join_lines]; [apply contains_self |].
    apply contains_app_r, contains_self.
  - destruct xs as [| y' xs]; [destruct H |].
    cbn [join_lines]. do 2 apply contains_app_l. now apply IH.
Qed.

Section RenderFacts.

Variable Path : Type.
Variable joinpath : Path -> string -> Path.
Variable resolve : Path -> Path.
Variable str : Path -> string.

(** The commit-time script is returned, and holds the two lines that
    carry the reservation directory and the archive root. *)
Lemma render_precommit_script_embeds (archive : ProjectArchive Path) :
  exists text,
    render_precommit_script joinpath resolve str archive = Ok text /\
    contains (q "FILE_RESERVATIONS_DIR = Path(`"
                ++ str (resolve (joinpath (root archive) "file_reservations")) ++ q "`)")
             text /\
    contains (q "STORAGE_ROOT = Path(`" ++ str (resolve (root archive)) ++ q "`)") text.
Proof.
  unfold render_precommit_script, precommit_lines.
  cbn [eval_list eval res_bind].
  eexists. split; [reflexivity |].
  split; apply contains_app_r, join_lines_contains.
  - do 9 right. left. reflexivity.
  - do 10 right. left. reflexivity.
Qed.

(** The element of line 209 is [+ "..."]: building the list raises. *)
Lemma prepush_lines_raise (file_reservations_dir : string) :
  eval_list (prepush_lines file_reservations_dir) = Raise TypeError.
Proof. reflexivity. Qed.

End RenderFacts.

(** C1 on the code: [render_precommit_script] returns the commit-time
    text with the reservation directory and the archive root in it, but
    [render_prepush_script] returns nothing: for every archive the
    evaluation of its list of lines raises [TypeError] at the unary plus
    of line 209. *)
Theorem render_prepush_script_raises :
  forall (Path : Type) (joinpath : Path -> string -> Path) (resolve : Path -> Path)
         (str : Path -> string) (archive : ProjectArchive Path),
    (exists text,
        render_precommit_script joinpath resolve str archive = Ok text /\
        contains (q "FILE_RESERVATIONS_DIR = Path(`"
                    ++ str (resolve (joinpath (root archive) "file_reservations")) ++ q "`)")
                 text /\
        contains (q "STORAGE_ROOT = Path(`" ++ str (resolve (root archive)) ++ q "`)") text)
    /\
    render_prepush_script joinpath resolve str archive = Raise TypeError.
Proof.
  intros. split; [apply render_precommit_script_embeds |].
  unfold render_prepush_script. now rewrite prepush_lines_raise.
Qed.

(** ** The push-time fallback *)

(** [changed] holds what [diff-tree] prints for the entries of
    [commits], and nothing else: an entry is only ever an argument of
    the invocation. *)
Lemma collect_changed_spec (w : World) (commits : list string) :
  snd (collect_changed w commits)
  = Next (flat_map (fun c => match git w (DIFF_TREE c) with
                             | Some data => nul_fields data
                             | None => []
                             end) commits).
Proof.
  induction commits as [| c commits IH]; [reflexivity |].
  cbn [collect_changed flat_map]. unfold run_git.
  rewrite bind_assoc, bind_emit, bind_ret_l. cbn [snd].
  rewrite step_of_bind, IH. reflexivity.
Qed.

Lemma collect_changed_all_fail (w : World) (commits : list string) :
  (forall c, In c commits -> git w (DIFF_TREE c) = None) ->
  snd (collect_changed w commits) = Next [].
Proof.
  intros H. rewrite collect_changed_spec. f_equal.
  induction commits as [| c commits IH]; [reflexivity |].
  cbn [flat_map]. rewrite (H c) by now left.
  apply IH. intros c' Hc'. apply H. now right.
Qed.

(** C2 on the code: when the commits of a ref update cannot be listed,
    the fallback does compute the direct diff, but its paths are
    appended to [commits] and handed to [diff-tree] as if they were
    commits.  Here the diff names [src/shared.txt], which B holds:
    [changed] stays empty and the push passes, although the evaluator
    reports the conflict when given that path. *)
Theorem fallback_paths_are_not_changed_paths :
  git Scenario.rev_list_fails (REV_LIST "1111" "origin") = None /\
  snd (fallback Scenario.rev_list_fails "1111" "2222") = Next ["src/shared.txt"] /\
  snd (collect_commits Scenario.rev_list_fails (read_tuples (stdin Scenario.rev_list_fails)))
  = Next ["src/shared.txt"] /\
  snd (collect_changed Scenario.rev_list_fails ["src/shared.txt"]) = Next [] /\
  prepush_body Concrete.pylib "A" (now Scenario.rev_list_fails) ["src/shared.txt"]
    Scenario.held_by_B
  = Ok [("src/shared.txt", JStr "B", "src/shared.txt")] /\
  prepush_script Concrete.pylib Scenario.rev_list_fails
  = ([DirExists; ReadStdin; GitRun (REV_LIST "1111" "origin");
      GitRun (DIFF_RANGE "2222..1111"); GitRun (DIFF_TREE "src/shared.txt");
      DirGlob; ReadText "lock.json"],
     Exit 0).
Proof. vm_compute. repeat split. Qed.

(** ** What a run writes *)

Lemma trace_bind_Forall {A B} (Q : event -> Prop) (m : script A) (f : A -> script B) :
  Forall Q (fst m) -> (forall a, Forall Q (fst (f a))) -> Forall Q (fst (bind m f)).
Proof.
  intros Hm Hf. rewrite trace_of_bind.
  destruct (snd m) as [a | o]; [| assumption].
  apply Forall_app. split; [assumption | apply Hf].
Qed.

Lemma run_git_silent (w : World) (args : list string) :
  Forall (fun e => silent e = true) (fst (run_git w args)).
Proof. repeat constructor. Qed.

Lemma staged_paths_silent (w : World) :
  Forall (fun e => silent e = true) (fst (staged_paths w)).
Proof.
  unfold staged_paths.
  apply trace_bind_Forall; [apply run_git_silent |].
  intros [data |]; [| constructor].
  apply trace_bind_Forall; [apply run_git_silent |].
  intros [sdata |]; constructor.
Qed.

Lemma scan_silent (body : json -> res (list conflict)) (candidates : list dir_entry)
    (acc : list conflict) :
  Forall (fun e => silent e = true) (fst (scan body candidates acc)).
Proof.
  revert acc. induction candidates as [| [name content] candidates IH]; intros acc.
  - constructor.
  - cbn [scan]. rewrite bind_emit. cbn [fst]. constructor; [reflexivity |].
    destruct content as [data |]; [| apply IH].
    apply trace_bind_Forall; [destruct (body data); constructor |].
    intros found. apply IH.
Qed.

Lemma collect_commits_silent (w : World) (tuples : list (string * string * string * string)) :
  Forall (fun e => silent e = true) (fst (collect_commits w tuples)).
Proof.
  induction tuples as [| [[[local_ref local_sha] remote_ref] remote_sha] tuples IH];
    [constructor |].
  cbn [collect_commits].
  apply trace_bind_Forall.
  - destruct (negb (nonempty local_sha)); [constructor |].
    apply trace_bind_Forall; [apply run_git_silent |].
    intros [out |]; [constructor |].
    unfold fallback. apply trace_bind_Forall; [apply run_git_silent |].
    intros [out |]; constructor.
  - intros here. apply trace_bind_Forall; [apply IH |]. intros more. constructor.
Qed.

Lemma collect_changed_silent (w : World) (commits : list string) :
  Forall (fun e => silent e = true) (fst (collect_changed w commits)).
Proof.
  induction commits as [| c commits IH]; [constructor |].
  cbn [collect_changed].
  apply trace_bind_Forall; [apply run_git_silent |].
  intros cp. apply trace_bind_Forall; [apply IH |]. intros more. constructor.
Qed.

Lemma precommit_findings_silent (lib : PyLib) (agent_name : string) (w : World) :
  Forall (fun e => silent e = true) (fst (precommit_findings lib agent_name w)).
Proof.
  unfold precommit_findings.
  apply trace_bind_Forall; [repeat constructor |].
  intros present. destruct (negb present); [constructor |].
  apply trace_bind_Forall; [apply staged_paths_silent |].
  intros [| p paths]; [constructor |].
  apply trace_bind_Forall; [repeat constructor |].
  intros candidates. apply scan_silent.
Qed.

Lemma prepush_findings_silent (lib : PyLib) (agent_name : string) (w : World) :
  Forall (fun e => silent e = true) (fst (prepush_findings lib agent_name w)).
Proof.
  unfold prepush_findings.
  apply trace_bind_Forall; [repeat constructor |].
  intros present. destruct (negb present); [constructor |].
  apply trace_bind_Forall; [repeat constructor |]. intros _.
  apply trace_bind_Forall; [apply collect_commits_silent |]. intros commits.
  apply trace_bind_Forall; [apply collect_changed_silent |]. intros changed.
  apply trace_bind_Forall; [repeat constructor |].
  intros candidates. apply scan_silent.
Qed.

(** The conflicts a scan returns come from the bodies. *)
Lemma scan_Forall (P : conflict -> Prop) (body : json -> res (list conflict)) :
  (forall r cs, body r = Ok cs -> Forall P cs) ->
  forall candidates acc cs,
    Forall P acc -> snd (scan body candidates acc) = Next cs -> Forall P cs.
Proof.
  intros Hbody. induction candidates as [| [name content] candidates IH]; intros acc cs Hacc.
  - cbn. intros [= <-]. assumption.
  - cbn [scan]. rewrite bind_emit. cbn [snd].
    destruct content as [data |]; [| now apply IH].
    destruct (body data) as [found | e] eqn:E; cbn [lift].
    + rewrite bind_ret_l. apply IH. apply Forall_app. split; [assumption |].
      now apply (Hbody data).
    + discriminate.
Qed.

Section Foreign.

Variable lib : PyLib.
Variables (agent_name : string) (now : Z) (paths : list string).

Lemma precommit_body_foreign (r : json) (cs : list conflict) :
  precommit_body lib agent_name now paths r = Ok cs ->
  Forall (fun c => eq_str (holder c) agent_name = false) cs.
Proof.
  destruct r; try discriminate.
  unfold precommit_body, dict_get, dict_get_default. cbn [res_bind].
  destruct (eq_str _ agent_name) eqn:E; [intros [= <-]; constructor |].
  destruct (expired _ _ _); [intros [= <-]; constructor |].
  destruct (negb _); [intros [= <-]; constructor |].
  unfold precommit_matches.
  destruct (match assoc "path_pattern" items with Some v => v | None => JNull end);
    try (destruct paths; [intros [= <-]; constructor | discriminate]).
  intros [= <-]. apply Forall_forall. intros c Hc.
  apply in_map_iff in Hc as (p & <- & _). exact E.
Qed.

Lemma prepush_body_foreign (r : json) (cs : list conflict) :
  prepush_body lib agent_name now paths r = Ok cs ->
  Forall (fun c => eq_str (holder c) agent_name = false) cs.
Proof.
  destruct r; try discriminate.
  unfold prepush_body, dict_get, dict_get_default. cbn [res_bind].
  destruct (eq_str _ agent_name) eqn:E; [intros [= <-]; constructor |].
  destruct (negb (truthy _)); [intros [= <-]; constructor |].
  destruct (expired _ _ _); [intros [= <-]; constructor |].
  destruct (prepush_pattern _) as [pattern | e]; [| discriminate].
  cbn [res_bind].
  destruct (negb _); [intros [= <-]; constructor |].
  intros [= <-]. apply Forall_forall. intros c Hc.
  apply in_map_iff in Hc as (p & <- & _). exact E.
Qed.

End Foreign.

Lemma silent_names_nobody (a : string) (t : list event) :
  Forall (fun e => silent e = true) t -> Forall (fun e => names_holder a e = false) t.
Proof.
  apply Forall_impl. intros [] H; try reflexivity; discriminate.
Qed.

Lemma precommit_findings_foreign (lib : PyLib) (agent_name : string) (w : World)
    (cs : list conflict) :
  snd (precommit_findings lib agent_name w) = Next cs ->
  Forall (fun c => eq_str (holder c) agent_name = false) cs.
Proof.
  unfold precommit_findings, dir_exists.
  rewrite bind_assoc, bind_emit, bind_ret_l. cbn [snd].
  destruct (negb _); [discriminate |].
  rewrite step_of_bind.
  destruct (snd (staged_paths w)) as [[| p paths] | o]; try discriminate.
  unfold glob_json. rewrite bind_assoc, bind_emit, bind_ret_l. cbn [snd].
  apply scan_Forall; [apply precommit_body_foreign | constructor].
Qed.

Lemma prepush_findings_foreign (lib : PyLib) (agent_name : string) (w : World)
    (cs : list conflict) :
  snd (prepush_findings lib agent_name w) = Next cs ->
  Forall (fun c => eq_str (holder c) agent_name = false) cs.
Proof.
  unfold prepush_findings, dir_exists.
  rewrite bind_assoc, bind_emit, bind_ret_l. cbn [snd].
  destruct (negb _); [discriminate |].
  rewrite bind_emit. cbn [snd]. rewrite step_of_bind.
  destruct (snd (collect_commits w _)) as [commits | o]; [| discriminate].
  rewrite step_of_bind.
  destruct (snd (collect_changed w commits)) as [changed | o]; [| discriminate].
  unfold glob_json. rewrite bind_assoc, bind_emit, bind_ret_l. cbn [snd].
  apply scan_Forall; [apply prepush_body_foreign | constructor].
Qed.

(** Findings that are silent and name only other holders, followed by
    the verdict, never report a conflict held by [a]. *)
Lemma verdict_foreign (a : string) (m : script (list conflict)) (h n b : string) (adv : bool) :
  Forall (fun e => silent e = true) (fst m) ->
  (forall cs, snd m = Next cs -> Forall (fun c => eq_str (holder c) a = false) cs) ->
  Forall (fun e => names_holder a e = false) (fst (finish (bind m (report h n b adv)))).
Proof.
  destruct m as [t [cs | o]]; cbn [fst snd]; intros Ht Hcs.
  - specialize (Hcs cs eq_refl). apply (silent_names_nobody a) in Ht.
    destruct cs as [| c cs].
    + cbn. now rewrite app_nil_r.
    + unfold bind. rewrite report_nonempty. cbn [finish fst].
      apply Forall_app. split; [assumption |].
      apply Forall_app. split; [| repeat constructor].
      constructor; [reflexivity |].
      apply Forall_forall. intros e He.
      apply in_map_iff in He as (c' & <- & Hc').
      cbn [names_holder]. revert c' Hc'. now apply Forall_forall.
  - cbn. now apply (silent_names_nobody a).
Qed.

Lemma precommit_script_foreign (lib : PyLib) (w : World) (a : string) :
  AGENT_NAME w = Some a ->
  Forall (fun e => names_holder a e = false) (trace_of (precommit_script lib w)).
Proof.
  intros Ha. unfold trace_of.
  destruct (gate_on w) eqn:Hg; [destruct (bypass_on w) eqn:Hb |].
  - rewrite (precommit_bypass lib w Hg Hb). repeat constructor.
  - rewrite (precommit_past_gates lib w a Hg Hb Ha).
    apply verdict_foreign;
      [apply precommit_findings_silent | apply precommit_findings_foreign].
  - rewrite (precommit_gate_off lib w Hg). constructor.
Qed.

Lemma prepush_script_foreign (lib : PyLib) (w : World) (a : string) :
  AGENT_NAME w = Some a ->
  Forall (fun e => names_holder a e = false) (trace_of (prepush_script lib w)).
Proof.
  intros Ha. unfold trace_of.
  destruct (gate_on w) eqn:Hg; [destruct (bypass_on w) eqn:Hb |].
  - rewrite (prepush_bypass lib w Hg Hb). repeat constructor.
  - rewrite (prepush_past_gates lib w a Hg Hb Ha).
    apply verdict_foreign;
      [apply prepush_findings_silent | apply prepush_findings_foreign].
  - rewrite (prepush_gate_off lib w Hg). constructor.
Qed.

(** C7: a reservation record whose [agent] field equals the acting
    agent adds no conflict in either script, whatever its pattern,
    expiry or exclusivity: its loop body ends at the first [continue],
    and a scan gives the same conflict list with the record as without
    it.  Hence no run of either script, on any snapshot and any paths,
    reports a conflict whose holder is the acting agent. *)
Theorem self_owned_never_conflicts :
  (forall (lib : PyLib) (agent_name : string) (now : Z) (paths : list string) (r : json),
      field "agent" r = Some (JStr agent_name) ->
      precommit_body lib agent_name now paths r = Ok [] /\
      prepush_body lib agent_name now paths r = Ok [] /\
      (forall pre post name acc,
          snd (scan (precommit_body lib agent_name now paths) (pre ++ (name, Some r) :: post) acc)
          = snd (scan (precommit_body lib agent_name now paths) (pre ++ post) acc)) /\
      (forall pre post name acc,
          snd (scan (prepush_body lib agent_name now paths) (pre ++ (name, Some r) :: post) acc)
          = snd (scan (prepush_body lib agent_name now paths) (pre ++ post) acc)))
  /\
  (forall (lib : PyLib) (w : World) (agent_name : string),
      AGENT_NAME w = Some agent_name ->
      Forall (fun e => names_holder agent_name e = false) (trace_of (precommit_script lib w)) /\
      Forall (fun e => names_holder agent_name e = false) (trace_of (prepush_script lib w))).
Proof.
  split.
  - intros lib agent_name now paths r H.
    pose proof (precommit_body_self lib agent_name now paths r H) as Hc.
    pose proof (prepush_body_self lib agent_name now paths r H) as Hp.
    repeat split; trivial; intros; now apply scan_skip.
  - intros lib w agent_name Ha.
    split; [now apply precommit_script_foreign | now apply prepush_script_foreign].
Qed.

Lemma self_owned_never_conflicts_witness :
  precommit_body Concrete.pylib "B" Scenario.t0 Scenario.one_path Scenario.held_by_B = Ok [] /\
  prepush_body Concrete.pylib "B" Scenario.t0 Scenario.one_path Scenario.held_by_B = Ok [] /\
  Forall (fun e => names_holder "B" e = false)
         (trace_of (precommit_script Concrete.pylib Scenario.scenario_B)).
Proof.
  destruct (proj1 self_owned_never_conflicts Concrete.pylib "B"%string Scenario.t0
              Scenario.one_path Scenario.held_by_B eq_refl) as (Hc & Hp & _).
  assert (AGENT_NAME Scenario.scenario_B = Some "B"%string) as Ha by (vm_compute; reflexivity).
  split; [exact Hc | split; [exact Hp |]].
  exact (proj1 (proj2 self_owned_never_conflicts Concrete.pylib Scenario.scenario_B
                  "B"%string Ha)).
Defined.

(** ** Further properties of the commit-time inspector *)

Lemma keep_nonempty (p : string) : nonempty p = true -> keep p = [p].
Proof. intros H. unfold keep. now rewrite H. Qed.

Lemma name_status_paths_entries (es : list entry) :
  forallb well_formed es = true ->
  name_status_paths (flat_map entry_parts es) = flat_map entry_paths es.
Proof.
  induction es as [| e es IH]; [reflexivity |].
  cbn [forallb]. intros H. apply andb_true_iff in H as [He Hes].
  specialize (IH Hes).
  destruct e as [status path | status oldp newp]; cbn [well_formed] in He.
  - apply andb_true_iff in He as [Hs Hp]. apply negb_true_iff in Hs.
    cbn [flat_map entry_parts entry_paths app name_status_paths].
    rewrite Hs, (keep_nonempty _ Hp), IH. reflexivity.
  - apply andb_true_iff in He as [He Hn]. apply andb_true_iff in He as [Hs Ho].
    cbn [flat_map entry_parts entry_paths app name_status_paths].
    rewrite Hs, (keep_nonempty _ Ho), (keep_nonempty _ Hn), IH. reflexivity.
Qed.

(** X1: when both commit-time invocations succeed and the rename listing
    is made of well-formed entries (a status and one path, or a status
    starting with R and two paths), the candidate paths are those of
    the name-only listing followed by every path of the listing; both
    the old and the new name of each rename are among them. *)
Theorem staged_paths_of_listing :
  forall (w : World) (data sdata : string) (es : list entry),
    git w NAME_ONLY = Some data ->
    git w NAME_STATUS = Some sdata ->
    nul_fields sdata = flat_map entry_parts es ->
    forallb well_formed es = true ->
    snd (staged_paths w) = Next (nul_fields data ++ flat_map entry_paths es)%list /\
    (forall status oldp newp,
        In (Rename status oldp newp) es ->
        exists paths, snd (staged_paths w) = Next paths /\ In oldp paths /\ In newp paths).
Proof.
  intros w data sdata es H1 H2 Hparts Hwf.
  assert (snd (staged_paths w) = Next (nul_fields data ++ flat_map entry_paths es)%list) as E.
  { unfold staged_paths, run_git. cbn. rewrite H1. cbn. rewrite H2. cbn.
    now rewrite Hparts, name_status_paths_entries. }
  split; [exact E |].
  intros status oldp newp Hin. eexists. split; [exact E |].
  split; apply in_or_app; right; apply in_flat_map;
    exists (Rename status oldp newp); (split; [assumption |]); cbn; auto.
Qed.

(** ** What exactly one record adds *)

Section Characterisation.

Variable lib : PyLib.
Variables (agent_name : string) (now : Z).

(** X2: what the commit-time loop body adds for a record that is a dict
    (and does not raise): exactly the triples (path, holder, pattern)
    where the path is a candidate, the pattern is the non-empty string
    of [path_pattern], the holder is not the acting agent, the expiry
    test does not skip the record, and [fnmatch] holds in one of the
    two directions. *)
Theorem precommit_conflict_iff :
  forall (paths : list string) (items : list (string * json)) (cs : list conflict),
    precommit_body lib agent_name now paths (JObj items) = Ok cs ->
    forall c : conflict,
      In c cs <->
      exists path p,
        c = (path, value "agent" items, p) /\
        In path paths /\
        value "path_pattern" items = JStr p /\
        nonempty p = true /\
        eq_str (value "agent" items) agent_name = false /\
        expired lib now (value "expires_ts" items) = false /\
        (fnmatch lib path p || fnmatch lib p path) = true.
Proof.
  intros paths items cs.
  unfold precommit_body, dict_get, dict_get_default. cbn [res_bind].
  fold (value "agent" items) (value "expires_ts" items) (value "path_pattern" items).
  destruct (eq_str (value "agent" items) agent_name) eqn:Ea.
  { intros [= <-] c. split; [intros [] |]. intros (path & p & _ & _ & _ & _ & H & _).
    discriminate. }
  destruct (expired lib now (value "expires_ts" items)) eqn:Ee.
  { intros [= <-] c. split; [intros [] |]. intros (path & p & _ & _ & _ & _ & _ & H & _).
    discriminate. }
  destruct (truthy (value "path_pattern" items)) eqn:Et; cbn [negb].
  2:{ intros [= <-] c. split; [intros [] |].
      intros (path & p & _ & _ & Hp & Hn & _). rewrite Hp in Et. cbn in Et. congruence. }
  unfold precommit_matches.
  destruct (value "path_pattern" items) as [| b | z | x | p | l | o] eqn:Ep;
    try (destruct paths as [| p0 paths]; [| discriminate];
         intros [= <-] c; split; [intros [] |];
         intros (path & p & _ & [] & _)).
  intros [= <-] c. cbn [truthy] in Et. split.
  - intros H. apply in_map_iff in H as (path & <- & H).
    apply filter_In in H as [Hin Hm].
    exists path, p. repeat split; trivial.
  - intros (path & p' & -> & Hin & [= <-] & _ & _ & _ & Hm).
    apply in_map_iff. exists path. split; [reflexivity |].
    apply filter_In. now split.
Qed.

(** X3: what the push-time loop body adds for a record that is a dict:
    exactly the triples (path, holder, pattern) where the path was
    changed, the pattern is the stripped, non-empty [path_pattern], the
    holder is not the acting agent, [exclusive] is truthy (true when
    missing), the expiry test does not skip the record, and the
    normalised comparison holds. *)
Theorem prepush_conflict_iff :
  forall (changed : list string) (items : list (string * json)) (cs : list conflict),
    prepush_body lib agent_name now changed (JObj items) = Ok cs ->
    forall c : conflict,
      In c cs <->
      exists path pattern,
        c = (path, value "agent" items, pattern) /\
        In path changed /\
        prepush_pattern (value "path_pattern" items) = Ok pattern /\
        nonempty pattern = true /\
        eq_str (value "agent" items) agent_name = false /\
        truthy match assoc "exclusive" items with Some v => v | None => JBool true end = true /\
        expired lib now (value "expires_ts" items) = false /\
        prepush_match lib path pattern = true.
Proof.
  intros changed items cs.
  unfold prepush_body, dict_get, dict_get_default. cbn [res_bind].
  fold (value "agent" items) (value "expires_ts" items) (value "path_pattern" items).
  destruct (eq_str (value "agent" items) agent_name) eqn:Ea.
  { intros [= <-] c. split; [intros [] |].
    intros (path & p & _ & _ & _ & _ & H & _). discriminate. }
  destruct (truthy match assoc "exclusive" items with Some v => v | None => JBool true end)
    eqn:Ex; cbn [negb].
  2:{ intros [= <-] c. split; [intros [] |].
      intros (path & p & _ & _ & _ & _ & _ & H & _). discriminate. }
  destruct (expired lib now (value "expires_ts" items)) eqn:Ee.
  { intros [= <-] c. split; [intros [] |].
    intros (path & p & _ & _ & _ & _ & _ & _ & H & _). discriminate. }
  destruct (prepush_pattern (value "path_pattern" items)) as [pattern | e] eqn:Ep;
    cbn [res_bind]; [| discriminate].
  destruct (nonempty pattern) eqn:En; cbn [negb].
  2:{ intros [= <-] c. split; [intros [] |].
      intros (path & p & _ & _ & [= <-] & H & _). congruence. }
  intros [= <-] c. split.
  - intros H. apply in_map_iff in H as (path & <- & H).
    apply filter_In in H as [Hin Hm].
    exists path, pattern. repeat split; trivial.
  - intros (path & p' & -> & Hin & [= <-] & _ & _ & _ & _ & Hm).
    apply in_map_iff. exists path. split; [reflexivity |].
    apply filter_In. now split.
Qed.

End Characterisation.

(** ** A record that is no object *)

Lemma scan_halts_at (body : json -> res (list conflict)) (pre post : list dir_entry)
    (name : string) (r : json) (e : exn) (acc acc' : list conflict) :
  body r = Raise e ->
  snd (scan body pre acc) = Next acc' ->
  scan body (pre ++ (name, Some r) :: post) acc
  = ((fst (scan body pre acc) ++ [ReadText name])%list, Halt (Uncaught e)).
Proof.
  intros Hr Hpre. rewrite scan_app.
  destruct (scan body pre acc) as [t s]. cbn [fst snd] in *. subst s.
  unfold bind. cbn [scan]. rewrite bind_emit, Hr. reflexivity.
Qed.

Lemma scan_first_parsed (body : json -> res (list conflict)) (candidates : list dir_entry)
    (r : json) (rest : list json) (e : exn) (acc : list conflict) :
  load_file_reservations candidates = r :: rest ->
  body r = Raise e ->
  snd (scan body candidates acc) = Halt (Uncaught e).
Proof.
  intros Hload Hr.
  induction candidates as [| [name [data |]] candidates IH]; [discriminate | |].
  - cbn [load_file_reservations] in Hload. injection Hload as -> _.
    cbn [scan]. rewrite bind_emit, Hr. reflexivity.
  - cbn [load_file_reservations] in Hload. cbn [scan]. rewrite bind_emit. cbn [snd].
    now apply IH.
Qed.

Lemma run_git_step (w : World) (args : list string) :
  snd (run_git w args) = Next (git w args).
Proof. reflexivity. Qed.

Lemma collect_commits_next (w : World) (tuples : list (string * string * string * string)) :
  exists commits, snd (collect_commits w tuples) = Next commits.
Proof.
  induction tuples as [| [[[local_ref local_sha] remote_ref] remote_sha] tuples [more IH]].
  - now exists [].
  - cbn [collect_commits]. destruct (negb (nonempty local_sha)).
    + rewrite bind_ret_l, step_of_bind, IH. eexists. reflexivity.
    + cbv zeta. rewrite !step_of_bind, run_git_step.
      destruct (git w (REV_LIST local_sha (remote_name w))).
      * cbn [ret snd]. rewrite step_of_bind, IH. eexists. reflexivity.
      * unfold fallback. rewrite step_of_bind, run_git_step.
        destruct (git w _); cbn [ret snd]; rewrite step_of_bind, IH; eexists; reflexivity.
Qed.

Lemma staged_paths_next (w : World) : exists paths, snd (staged_paths w) = Next paths.
Proof.
  unfold staged_paths, run_git. rewrite bind_assoc, bind_emit, bind_ret_l. cbn [snd].
  destruct (git w NAME_ONLY); [| eexists; reflexivity].
  rewrite bind_assoc, bind_emit, bind_ret_l. cbn [snd].
  destruct (git w NAME_STATUS); eexists; reflexivity.
Qed.

Lemma finish_halt (m : script (list conflict)) (f : list conflict -> script Empty_set)
    (o : outcome) :
  snd m = Halt o -> finish (bind m f) = (fst m, o).
Proof. destruct m as [t s]. cbn [fst snd]. now intros ->. Qed.

Lemma body_of_non_object (lib : PyLib) (a : string) (now : Z) (paths : list string) (r : json) :
  is_dict r = false ->
  precommit_body lib a now paths r = Raise AttributeError /\
  prepush_body lib a now paths r = Raise AttributeError.
Proof. destruct r; cbn [is_dict]; intros H; try discriminate; split; reflexivity. Qed.

(** X4: a reservation file that parses as JSON but is no object (a list,
    a string, a number, null) is not skipped: when it is the first
    candidate that parses, [.get] raises [AttributeError] outside every
    [try], so the push-time script ends with exit status 1 whatever the
    mode, and so does the commit-time script when something is
    staged. *)
Theorem non_object_record_stops_the_hook :
  forall (lib : PyLib) (w : World) (a : string) (entries : list dir_entry) (r : json)
         (rest : list json),
    gate_on w = true -> bypass_on w = false -> AGENT_NAME w = Some a ->
    reservations w = Some entries ->
    load_file_reservations (filter (fun e => endswith ".json" (fst e)) entries) = r :: rest ->
    is_dict r = false ->
    outcome_of (prepush_script lib w) = Uncaught AttributeError /\
    exit_status (outcome_of (prepush_script lib w)) = 1 /\
    (forall p paths,
        snd (staged_paths w) = Next (p :: paths) ->
        outcome_of (precommit_script lib w) = Uncaught AttributeError /\
        exit_status (outcome_of (precommit_script lib w)) = 1).
Proof.
  intros lib w a entries r rest Hg Hb Ha Hres Hload Hr.
  assert (outcome_of (prepush_script lib w) = Uncaught AttributeError) as Hp.
  { rewrite (prepush_past_gates lib w a Hg Hb Ha).
    assert (snd (prepush_findings lib a w) = Halt (Uncaught AttributeError)) as Hf.
    { unfold prepush_findings, dir_exists.
      rewrite bind_assoc, bind_emit, bind_ret_l. cbn [snd]. rewrite Hres. cbn [negb].
      rewrite bind_emit. cbn [snd]. rewrite step_of_bind.
      destruct (collect_commits_next w (read_tuples (stdin w))) as [commits ->].
      rewrite step_of_bind, collect_changed_spec.
      unfold glob_json. rewrite bind_assoc, bind_emit, bind_ret_l. cbn [snd]. rewrite Hres.
      apply (scan_first_parsed _ _ r rest); [assumption |].
      now apply body_of_non_object. }
    now rewrite (finish_halt _ _ _ Hf). }
  split; [assumption |]. split; [now rewrite Hp |].
  intros p paths Hs.
  assert (outcome_of (precommit_script lib w) = Uncaught AttributeError) as Hc.
  { rewrite (precommit_past_gates lib w a Hg Hb Ha).
    assert (snd (precommit_findings lib a w) = Halt (Uncaught AttributeError)) as Hf.
    { unfold precommit_findings, dir_exists.
      rewrite bind_assoc, bind_emit, bind_ret_l. cbn [snd]. rewrite Hres. cbn [negb].
      rewrite step_of_bind, Hs.
      unfold glob_json. rewrite bind_assoc, bind_emit, bind_ret_l. cbn [snd]. rewrite Hres.
      apply (scan_first_parsed _ _ r rest); [assumption |].
      now apply body_of_non_object. }
    now rewrite (finish_halt _ _ _ Hf). }
  split; [assumption | now rewrite Hc].
Qed.

(** ** The ref updates read from standard input *)

Lemma flush_tokens (cur : list ascii) :
  forallb (fun c => negb (isspace c)) cur = true ->
  Forall (fun t => is_token t = true) (flush cur).
Proof.
  intros H. destruct cur as [| c cur]; [constructor |].
  cbn [flush]. constructor; [| constructor].
  unfold is_token. rewrite list_ascii_of_string_of_list_ascii.
  apply andb_true_iff. split.
  - destruct (List.rev (c :: cur)) as [| d l] eqn:E; [| reflexivity].
    apply (f_equal (@List.length ascii)) in E. rewrite length_rev in E. discriminate.
  - apply forallb_forall. intros x Hx. apply in_rev in Hx.
    revert x Hx. now apply forallb_forall.
Qed.

Lemma split_ws_from_tokens (s : string) :
  forall cur,
    forallb (fun c => negb (isspace c)) cur = true ->
    Forall (fun t => is_token t = true) (split_ws_from cur s).
Proof.
  induction s as [| c s IH]; intros cur Hcur; cbn [split_ws_from].
  - now apply flush_tokens.
  - destruct (isspace c) eqn:E.
    + apply Forall_app. split; [now apply flush_tokens | now apply IH].
    + apply IH. cbn [forallb]. now rewrite E.
Qed.

Lemma in_trace_bind_l {A B} (e : event) (m : script A) (f : A -> script B) :
  In e (fst m) -> In e (fst (bind m f)).
Proof.
  intros H. rewrite trace_of_bind.
  destruct (snd m); [apply in_or_app; now left | assumption].
Qed.

Lemma in_trace_bind_r {A B} (e : event) (m : script A) (f : A -> script B) (a : A) :
  snd m = Next a -> In e (fst (f a)) -> In e (fst (bind m f)).
Proof.
  intros Hm H. rewrite trace_of_bind, Hm. apply in_or_app. now right.
Qed.

Lemma collect_commits_asks (w : World) (tuples : list (string * string * string * string))
    (local_ref local_sha remote_ref remote_sha : string) :
  In (local_ref, local_sha, remote_ref, remote_sha) tuples ->
  nonempty local_sha = true ->
  In (GitRun (REV_LIST local_sha (remote_name w))) (fst (collect_commits w tuples)).
Proof.
  intros Hin Hs.
  induction tuples as [| [[[lr ls] rr] rs] tuples IH]; [destruct Hin |].
  cbn [collect_commits].
  destruct Hin as [[= -> -> -> ->] | Hin].
  - rewrite Hs. cbn [negb]. do 2 apply in_trace_bind_l. now left.
  - specialize (IH Hin).
    destruct (negb (nonempty ls)).
    + rewrite bind_ret_l. now apply in_trace_bind_l.
    + rewrite bind_assoc. eapply in_trace_bind_r; [apply run_git_step |].
      destruct (git w (REV_LIST ls (remote_name w))).
      * rewrite bind_ret_l. now apply in_trace_bind_l.
      * unfold fallback. rewrite bind_assoc.
        eapply in_trace_bind_r; [apply run_git_step |].
        destruct (git w _); rewrite bind_ret_l; now apply in_trace_bind_l.
Qed.

(** X5: every tuple read from standard input has four non-empty fields
    without white space, so the [if not local_sha] test never skips
    one: [rev-list] is invoked for each ref update read. *)
Theorem every_ref_update_is_inspected :
  forall (w : World) (local_ref local_sha remote_ref remote_sha : string),
    In (local_ref, local_sha, remote_ref, remote_sha) (read_tuples (stdin w)) ->
    is_token local_ref = true /\ is_token local_sha = true /\
    is_token remote_ref = true /\ is_token remote_sha = true /\
    In (GitRun (REV_LIST local_sha (remote_name w)))
       (fst (collect_commits w (read_tuples (stdin w)))).
Proof.
  intros w local_ref local_sha remote_ref remote_sha Hin.
  assert (is_token local_ref = true /\ is_token local_sha = true /\
          is_token remote_ref = true /\ is_token remote_sha = true) as Htok.
  { unfold read_tuples in Hin. apply in_flat_map in Hin as (line & _ & Hin).
    pose proof (split_ws_from_tokens (strip line) [] eq_refl) as Hall.
    fold (split_ws (strip line)) in Hall.
    destruct (split_ws (strip line)) as [| p0 [| p1 [| p2 [| p3 more]]]];
      try destruct Hin.
    2: destruct H.
    injection H as <- <- <- <-.
    inversion Hall as [| ? ? H0 Hall1]; subst.
    inversion Hall1 as [| ? ? H1 Hall2]; subst.
    inversion Hall2 as [| ? ? H2 Hall3]; subst.
    inversion Hall3 as [| ? ? H3 _]; subst.
    auto. }
  destruct Htok as (H0 & H1 & H2 & H3). repeat split; trivial.
  apply (collect_commits_asks w _ local_ref local_sha remote_ref remote_sha Hin).
  unfold is_token in H1. now apply andb_true_iff in H1 as [H1 _].
Qed.

(** ** Environment values *)




(** ** Exit codes and the verdict *)

Lemma scan_halt (body : json -> res (list conflict)) (candidates : list dir_entry)
    (acc : list conflict) (o : outcome) :
  snd (scan body candidates acc) = Halt o -> exists e, o = Uncaught e.
Proof.
  revert acc. induction candidates as [| [name [data |]] candidates IH]; intros acc.
  - discriminate.
  - cbn [scan]. rewrite bind_emit. cbn [snd].
    destruct (body data) as [found | e]; cbn [lift].
    + rewrite bind_ret_l. apply IH.
    + intros [= <-]. now exists e.
  - cbn [scan]. rewrite bind_emit. cbn [snd]. apply IH.
Qed.

Lemma precommit_findings_halt (lib : PyLib) (a : string) (w : World) (o : outcome) :
  snd (precommit_findings lib a w) = Halt o -> o = Exit 0 \/ exists e, o = Uncaught e.
Proof.
  unfold precommit_findings, dir_exists.
  rewrite bind_assoc, bind_emit, bind_ret_l. cbn [snd].
  destruct (negb _); [intros [= <-]; now left |].
  rewrite step_of_bind.
  destruct (staged_paths_next w) as [[| p paths] ->]; [intros [= <-]; now left |].
  unfold glob_json. rewrite bind_assoc, bind_emit, bind_ret_l. cbn [snd].
  intros H. right. eapply scan_halt. eassumption.
Qed.

Lemma prepush_findings_halt (lib : PyLib) (a : string) (w : World) (o : outcome) :
  snd (prepush_findings lib a w) = Halt o -> o = Exit 0 \/ exists e, o = Uncaught e.
Proof.
  unfold prepush_findings, dir_exists.
  rewrite bind_assoc, bind_emit, bind_ret_l. cbn [snd].
  destruct (negb _); [intros [= <-]; now left |].
  rewrite bind_emit. cbn [snd]. rewrite step_of_bind.
  destruct (collect_commits_next w (read_tuples (stdin w))) as [commits ->].
  rewrite step_of_bind, collect_changed_spec.
  unfold glob_json. rewrite bind_assoc, bind_emit, bind_ret_l. cbn [snd].
  intros H. right. eapply scan_halt. eassumption.
Qed.

Lemma reported_app (t t' : list event) : reported (t ++ t') = (reported t ++ reported t')%list.
Proof.
  induction t as [| e t IH]; [reflexivity |].
  destruct e; cbn [app reported]; now rewrite IH.
Qed.

Lemma reported_silent (t : list event) :
  Forall (fun e => silent e = true) t -> reported t = [].
Proof.
  induction 1 as [| e t He _ IH]; [reflexivity |].
  destruct e; cbn [reported]; try assumption. discriminate.
Qed.

Lemma reported_conflicts (cs : list conflict) : reported (map StderrConflict cs) = cs.
Proof. induction cs as [| c cs IH]; [reflexivity |]. cbn. now rewrite IH. Qed.

(** A run past the gates, by what the findings gave. *)
Lemma verdict_cases (m : script (list conflict)) (h n b : string) (adv : bool) :
  Forall (fun e => silent e = true) (fst m) ->
  (forall o, snd m = Halt o -> o = Exit 0 \/ exists e, o = Uncaught e) ->
  let r := finish (bind m (report h n b adv)) in
  (snd r = Exit 1 <-> adv = false /\ reported (fst r) <> []) /\
  (exit_status (snd r) = 0 \/ exit_status (snd r) = 1) /\
  (forall cs, snd m = Next cs -> reported (fst r) = cs).
Proof.
  destruct m as [t [cs | o]]; cbn [fst snd]; intros Ht Hhalt.
  - destruct cs as [| c cs].
    + cbn. rewrite app_nil_r, (reported_silent t Ht).
      split; [split; [discriminate | intros [_ H]; now destruct H] |].
      split; [now left | now intros cs [= <-]].
    + cbv zeta. unfold bind. rewrite report_nonempty. cbn [finish fst snd].
      rewrite !reported_app, (reported_silent t Ht).
      change (reported (Stderr h :: map StderrConflict (c :: cs)))
        with (reported (map StderrConflict (c :: cs))).
      rewrite reported_conflicts. cbn [app reported].
      destruct adv; (split; [split |]).
      * discriminate.
      * intros [H _]. discriminate.
      * split; [now left | intros cs' [= <-]; now rewrite app_nil_r].
      * intros _. split; [reflexivity | discriminate].
      * reflexivity.
      * split; [now right | intros cs' [= <-]; now rewrite app_nil_r].
  - cbn. rewrite (reported_silent t Ht).
    destruct (Hhalt o eq_refl) as [-> | [e ->]].
    + split; [split; [discriminate | intros [_ H]; now destruct H] |].
      split; [now left | discriminate].
    + split; [split; [discriminate | intros [_ H]; now destruct H] |].
      split; [now right | discriminate].
Qed.


(** X8: with the identity set, a script exits through [sys.exit(1)]
    exactly when the mode is not advisory and at least one conflict
    line was written; past the gates the conflict lines written are the
    conflicts found, in order and with repetitions. *)
Theorem blocked_iff_conflict_reported :
  forall (lib : PyLib) (w : World) (a : string),
    AGENT_NAME w = Some a ->
    (outcome_of (precommit_script lib w) = Exit 1
     <-> ADVISORY w = false /\ reported (trace_of (precommit_script lib w)) <> []) /\
    (outcome_of (prepush_script lib w) = Exit 1
     <-> ADVISORY w = false /\ reported (trace_of (prepush_script lib w)) <> []) /\
    (gate_on w = true -> bypass_on w = false ->
     (forall cs, snd (precommit_findings lib a w) = Next cs ->
                 reported (trace_of (precommit_script lib w)) = cs) /\
     (forall cs, snd (prepush_findings lib a w) = Next cs ->
                 reported (trace_of (prepush_script lib w)) = cs)).
Proof.
  intros lib w a Ha. unfold outcome_of, trace_of.
  pose proof (verdict_cases (precommit_findings lib a w) Note.precommit_header
                Note.precommit_advisory Note.precommit_blocking (ADVISORY w)
                (precommit_findings_silent lib a w) (precommit_findings_halt lib a w))
    as (Hc1 & _ & Hc2).
  pose proof (verdict_cases (prepush_findings lib a w) Note.prepush_header
                Note.prepush_advisory Note.prepush_blocking (ADVISORY w)
                (prepush_findings_silent lib a w) (prepush_findings_halt lib a w))
    as (Hp1 & _ & Hp2).
  destruct (gate_on w) eqn:Hg; [destruct (bypass_on w) eqn:Hb |].
  - rewrite (precommit_bypass lib w Hg Hb), (prepush_bypass lib w Hg Hb). cbn.
    repeat split; try discriminate; intros [_ H]; now destruct H.
  - rewrite (precommit_past_gates lib w a Hg Hb Ha), (prepush_past_gates lib w a Hg Hb Ha).
    split; [exact Hc1 |]. split; [exact Hp1 |]. intros _ _. split; assumption.
  - rewrite (precommit_gate_off lib w Hg), (prepush_gate_off lib w Hg). cbn.
    repeat split; try discriminate; intros [_ H]; now destruct H.
Qed.

(** X9: past the gates, when the reservation directory does not exist
    both scripts exit 0 after the existence test alone: no invocation
    of the version-control tool, no read of standard input. *)
Theorem no_reservation_directory_is_a_no_op :
  forall (lib : PyLib) (w : World) (a : string),
    gate_on w = true -> bypass_on w = false -> AGENT_NAME w = Some a ->
    reservations w = None ->
    precommit_script lib w = ([DirExists], Exit 0) /\
    prepush_script lib w = ([DirExists], Exit 0).
Proof.
  intros lib w a Hg Hb Ha Hres.
  rewrite (precommit_past_gates lib w a Hg Hb Ha), (prepush_past_gates lib w a Hg Hb Ha).
  unfold precommit_findings, prepush_findings, dir_exists. rewrite Hres.
  split; reflexivity.
Qed.

(** ** The push-time comparison *)

Lemma backslash_to_slash_idem (s : string) :
  backslash_to_slash (backslash_to_slash s) = backslash_to_slash s.
Proof.
  induction s as [| c s IH]; [reflexivity |].
  cbn [backslash_to_slash]. rewrite IH. f_equal.
  destruct (Ascii.eqb c BACKSLASH) eqn:E; [reflexivity | now rewrite E].
Qed.

(** X10: the push-time comparison is symmetric in path and pattern,
    holds whenever both are the same text, and ignores a leading slash
    or backslash and the difference between backslash and slash. *)
Theorem prepush_match_normalises :
  forall (lib : PyLib) (path pattern : string),
    prepush_match lib path pattern = prepush_match lib pattern path /\
    prepush_match lib path path = true /\
    prepush_match lib (String "/" path) pattern = prepush_match lib path pattern /\
    prepush_match lib (String BACKSLASH path) pattern = prepush_match lib path pattern /\
    prepush_match lib (backslash_to_slash path) pattern = prepush_match lib path pattern.
Proof.
  intros lib path pattern. unfold prepush_match. cbv zeta.
  split; [| split; [| split; [| split]]].
  - rewrite (String.eqb_sym (lstrip_slash (backslash_to_slash path))).
    now rewrite (orb_comm (fnmatchcase lib _ _)).
  - rewrite String.eqb_refl. now rewrite orb_true_r.
  - reflexivity.
  - reflexivity.
  - now rewrite backslash_to_slash_idem.
Qed.

(** ** The scan as a snapshot followed by an evaluation *)

Lemma scan_trace_ok (body : json -> res (list conflict)) (candidates : list dir_entry)
    (acc : list conflict) :
  Forall (fun r => exists cs, body r = Ok cs) (load_file_reservations candidates) ->
  scan body candidates acc
  = (map (fun e => ReadText (fst e)) candidates,
     Next (acc ++ flat_map (fun r => match body r with
                                     | Ok cs => cs
                                     | Raise _ => []
                                     end)
                           (load_file_reservations candidates))%list).
Proof.
  revert acc. induction candidates as [| [name [data |]] candidates IH]; intros acc Hall.
  - cbn. now rewrite app_nil_r.
  - cbn [load_file_reservations] in Hall. inversion Hall as [| ? ? [cs Hcs] Hrest]; subst.
    cbn [scan load_file_reservations flat_map map fst].
    rewrite bind_emit, Hcs. cbn [lift]. rewrite bind_ret_l, (IH _ Hrest).
    cbn [fst snd]. now rewrite app_assoc.
  - cbn [load_file_reservations] in Hall.
    cbn [scan load_file_reservations map fst]. rewrite bind_emit, (IH _ Hall). reflexivity.
Qed.

(** X11: when no parsed record makes the body raise, the scan reads
    every candidate file once, in listing order, and its conflicts are
    the concatenation, record by record, of what the body gives on the
    loaded snapshot. *)
Theorem scan_is_load_then_evaluate :
  forall (body : json -> res (list conflict)) (candidates : list dir_entry),
    Forall (fun r => exists cs, body r = Ok cs) (load_file_reservations candidates) ->
    fst (scan body candidates []) = map (fun e => ReadText (fst e)) candidates /\
    snd (scan body candidates [])
    = Next (flat_map (fun r => match body r with
                               | Ok cs => cs
                               | Raise _ => []
                               end)
                     (load_file_reservations candidates)).
Proof.
  intros body candidates Hall. rewrite (scan_trace_ok body candidates [] Hall).
  split; reflexivity.
Qed.

(** ** The installer *)

Section InstallerFacts.

Variable Path : Type.
Variable Settings : Type.
Variable mkpath : string -> Path.
Variable joinpath : Path -> string -> Path.
Variable joinpaths : Path -> Path -> Path.
Variable is_absolute : Path -> bool.
Variable parent : Path -> Path.
Variable name : Path -> string.
Variable resolve : Path -> Path.
Variable str : Path -> string.
Variable h : Host Path Settings.

Ltac case_given :=
  match goal with
  | |- context [given ?x] => destruct (given x)
  end.

Lemma ibind_ok {A B} (t : list (ievent Path)) (a : A) (f : A -> inst Path B) :
  ibind (t, Ok a) f = ((t ++ fst (f a))%list, snd (f a)).
Proof. unfold ibind. now destruct (f a). Qed.

(** The directory is always found, and looking for it changes nothing. *)
Lemma resolve_hooks_dir_returns (repo : Path) :
  exists d,
    snd (_resolve_hooks_dir mkpath joinpath joinpaths is_absolute str h repo) = Ok d /\
    Forall (fun e => writes e = false)
           (fst (_resolve_hooks_dir mkpath joinpath joinpaths is_absolute str h repo)).
Proof.
  unfold _resolve_hooks_dir, _git. cbn [ibind iemit iret fst snd app].
  case_given.
  - destruct (taken_as_absolute _); cbn [ibind iemit iret fst snd app];
      eexists; (split; [reflexivity | repeat constructor]).
  - cbn [ibind iemit iret fst snd app].
    case_given; eexists; (split; [reflexivity | repeat constructor]).
Qed.

Lemma install_guard_run (settings : Settings) (project_slug : string) (repo : Path)
    (t : list (ievent Path)) (hooks_dir : Path) (text : string) :
  _resolve_hooks_dir mkpath joinpath joinpaths is_absolute str h repo = (t, Ok hooks_dir) ->
  render_precommit_script joinpath resolve str (ensure_archive h settings project_slug)
  = Ok text ->
  install_guard mkpath joinpath joinpaths is_absolute parent name resolve str h
    settings project_slug repo
  = ((IEnsureArchive project_slug :: t
      ++ IExists (parent hooks_dir)
         :: (if negb (path_exists h (parent hooks_dir))
                && negb (String.eqb (name hooks_dir) "hooks")
             then [IMkdir (parent hooks_dir)] else [])
      ++ IExists hooks_dir
         :: (if negb (path_exists h hooks_dir) then [IMkdir hooks_dir] else []))
     ++ [ILock; IMkdir hooks_dir;
         IWriteText (joinpath hooks_dir "pre-commit") text;
         IChmod (joinpath hooks_dir "pre-commit") 493;
         IUnlock],
     Ok (joinpath hooks_dir "pre-commit"))%list.
Proof.
  intros Hdir Htext. unfold install_guard, exists_. rewrite Hdir, Htext.
  cbn [ibind iemit iret ilift fst snd app].
  destruct (negb (path_exists h (parent hooks_dir)) && negb (String.eqb (name hooks_dir) "hooks"));
    destruct (negb (path_exists h hooks_dir));
    cbn [ibind iemit iret ilift fst snd app];
    rewrite <- !app_assoc; reflexivity.
Qed.

Lemma install_prepush_guard_run (settings : Settings) (project_slug : string) (repo : Path)
    (t : list (ievent Path)) (hooks_dir : Path) :
  _resolve_hooks_dir mkpath joinpath joinpaths is_absolute str h repo = (t, Ok hooks_dir) ->
  install_prepush_guard mkpath joinpath joinpaths is_absolute resolve str h
    settings project_slug repo
  = ((IEnsureArchive project_slug :: t) ++ [IMkdir hooks_dir], Raise TypeError)%list.
Proof.
  intros Hdir. unfold install_prepush_guard. rewrite Hdir.
  unfold render_prepush_script. rewrite prepush_lines_raise.
  cbn [ibind iemit iret ilift fst snd app res_bind].
  reflexivity.
Qed.

(** X12: when [core.hooksPath] is configured (non-empty output), the
    hooks directory is that path as it is if it starts with a slash or
    a drive prefix, and otherwise that path under the top-level
    directory ([str(repo)] when [--show-toplevel] fails or is empty);
    [rev-parse --git-dir] is never invoked. *)
Theorem configured_hooks_path_wins (repo : Path) (out : string) :
  git_c h repo ["config"; "--get"; "core.hooksPath"] = Some out ->
  nonempty (strip out) = true ->
  snd (_resolve_hooks_dir mkpath joinpath joinpaths is_absolute str h repo)
  = Ok (if taken_as_absolute (strip out) then mkpath (strip out)
        else joinpath
               (mkpath (or_else (option_map strip
                                   (git_c h repo ["rev-parse"; "--show-toplevel"]))
                                (str repo)))
               (strip out)) /\
  ~ In (IGit repo ["rev-parse"; "--git-dir"])
       (fst (_resolve_hooks_dir mkpath joinpath joinpaths is_absolute str h repo)).
Proof.
  intros Hcfg Hne.
  unfold _resolve_hooks_dir, _git. cbn [ibind iemit iret fst snd app].
  rewrite Hcfg. cbn [given]. rewrite Hne.
  destruct (taken_as_absolute (strip out)); cbn [ibind iemit iret fst snd app].
  - split; [reflexivity |]. intros [E | []]. discriminate.
  - split; [reflexivity |]. intros [E | [E | []]]; discriminate.
Qed.

(** X13: when [core.hooksPath] is not configured and [rev-parse
    --git-dir] answers, the hooks directory is [hooks] under the git
    directory, taken under the checkout when it is relative;
    [--show-toplevel] is never invoked. *)
Theorem git_dir_is_the_second_choice (repo : Path) (out : string) :
  given (option_map strip (git_c h repo ["config"; "--get"; "core.hooksPath"])) = None ->
  git_c h repo ["rev-parse"; "--git-dir"] = Some out ->
  nonempty (strip out) = true ->
  snd (_resolve_hooks_dir mkpath joinpath joinpaths is_absolute str h repo)
  = Ok (joinpath (if is_absolute (mkpath (strip out)) then mkpath (strip out)
                  else joinpaths repo (mkpath (strip out)))
                 "hooks") /\
  ~ In (IGit repo ["rev-parse"; "--show-toplevel"])
       (fst (_resolve_hooks_dir mkpath joinpath joinpaths is_absolute str h repo)).
Proof.
  intros Hcfg Hdir Hne.
  unfold _resolve_hooks_dir, _git. cbn [ibind iemit iret fst snd app].
  change (match git_c h repo ["config"; "--get"; "core.hooksPath"] with
          | Some out0 => Some (strip out0)
          | None => None
          end)
    with (option_map strip (git_c h repo ["config"; "--get"; "core.hooksPath"])).
  rewrite Hcfg. cbn [ibind iemit iret fst snd app].
  rewrite Hdir. cbn [given]. rewrite Hne.
  split; [reflexivity |]. intros [E | [E | []]]; discriminate.
Qed.

(** X14: [install_guard] returns the path [pre-commit] in the resolved
    hooks directory; it ends with: lock, mkdir of the hooks directory,
    write of the rendered commit-time script to that path, chmod 0o755,
    unlock; nothing before the lock writes a file or takes the lock. *)
Theorem install_guard_writes_under_the_lock (settings : Settings) (project_slug : string)
    (repo : Path) :
  exists hooks_dir text before,
    snd (_resolve_hooks_dir mkpath joinpath joinpaths is_absolute str h repo) = Ok hooks_dir /\
    render_precommit_script joinpath resolve str (ensure_archive h settings project_slug)
    = Ok text /\
    install_guard mkpath joinpath joinpaths is_absolute parent name resolve str h
      settings project_slug repo
    = ((before ++ [ILock; IMkdir hooks_dir;
                   IWriteText (joinpath hooks_dir "pre-commit") text;
                   IChmod (joinpath hooks_dir "pre-commit") 493;
                   IUnlock])%list,
       Ok (joinpath hooks_dir "pre-commit")) /\
    Forall (fun e => writes e = false) before.
Proof.
  destruct (resolve_hooks_dir_returns repo) as (d & Hd & Hq).
  destruct (_resolve_hooks_dir mkpath joinpath joinpaths is_absolute str h repo)
    as [t r] eqn:E.
  cbn [fst snd] in Hd, Hq. subst r.
  destruct (render_precommit_script_embeds Path joinpath resolve str
              (ensure_archive h settings project_slug)) as (text & Ht & _).
  exists d, text. eexists. split; [reflexivity |]. split; [exact Ht |].
  split; [apply (install_guard_run settings project_slug repo t d text E Ht) |].
  constructor; [reflexivity |]. apply Forall_app. split; [assumption |].
  constructor; [reflexivity |]. apply Forall_app. split.
  - destruct (_ && _); repeat constructor.
  - constructor; [reflexivity |]. destruct (negb _); repeat constructor.
Qed.

(** X15: [install_prepush_guard] resolves the hooks directory, creates
    it, and then raises [TypeError] from [render_prepush_script]: no
    file is written or made executable and the lock is never taken. *)
Theorem install_prepush_guard_writes_nothing (settings : Settings) (project_slug : string)
    (repo : Path) :
  exists hooks_dir before,
    snd (_resolve_hooks_dir mkpath joinpath joinpaths is_absolute str h repo) = Ok hooks_dir /\
    install_prepush_guard mkpath joinpath joinpaths is_absolute resolve str h
      settings project_slug repo
    = ((before ++ [IMkdir hooks_dir])%list, Raise TypeError) /\
    Forall (fun e => writes e = false) before.
Proof.
  destruct (resolve_hooks_dir_returns repo) as (d & Hd & Hq).
  destruct (_resolve_hooks_dir mkpath joinpath joinpaths is_absolute str h repo)
    as [t r] eqn:E.
  cbn [fst snd] in Hd, Hq. subst r.
  exists d. eexists. split; [reflexivity |].
  split; [apply (install_prepush_guard_run settings project_slug repo t d E) |].
  constructor; [reflexivity | assumption].
Qed.

(** X16: when every invocation of the version-control tool fails,
    [install_guard] writes and returns [repo/.git/hooks/pre-commit],
    the very path [uninstall_guard] tests and, when it exists, unlinks
    (returning [True], otherwise [False]). *)
Theorem without_git_install_and_uninstall_agree (settings : Settings)
    (project_slug : string) (repo : Path) :
  (forall args, git_c h repo args = None) ->
  snd (install_guard mkpath joinpath joinpaths is_absolute parent name resolve str h
         settings project_slug repo)
  = Ok (joinpath (joinpath (joinpath repo ".git") "hooks") "pre-commit") /\
  (exists text,
      In (IWriteText (joinpath (joinpath (joinpath repo ".git") "hooks") "pre-commit") text)
         (fst (install_guard mkpath joinpath joinpaths is_absolute parent name resolve str h
                 settings project_slug repo))) /\
  uninstall_guard joinpath h repo
  = if path_exists h (joinpath (joinpath (joinpath repo ".git") "hooks") "pre-commit")
    then ([IExists (joinpath (joinpath (joinpath repo ".git") "hooks") "pre-commit");
           IUnlink (joinpath (joinpath (joinpath repo ".git") "hooks") "pre-commit")],
          Ok true)
    else ([IExists (joinpath (joinpath (joinpath repo ".git") "hooks") "pre-commit")],
          Ok false).
Proof.
  intros Hgit.
  assert (_resolve_hooks_dir mkpath joinpath joinpaths is_absolute str h repo
          = ([IGit repo ["config"; "--get"; "core.hooksPath"];
              IGit repo ["rev-parse"; "--git-dir"]],
             Ok (joinpath (joinpath repo ".git") "hooks"))) as E.
  { unfold _resolve_hooks_dir, _git. cbn [ibind iemit iret fst snd app].
    rewrite !Hgit. reflexivity. }
  destruct (render_precommit_script_embeds Path joinpath resolve str
              (ensure_archive h settings project_slug)) as (text & Ht & _).
  rewrite (install_guard_run settings project_slug repo _ _ text E Ht).
  split; [reflexivity |]. split.
  - exists text. cbn [fst]. apply in_or_app. right. right. right. now left.
  - unfold uninstall_guard, exists_. cbn [ibind iemit iret fst snd app].
    destruct (path_exists h _); reflexivity.
Qed.

End InstallerFacts.

Lemma configured_hooks_path_wins_witness :
  snd (_resolve_hooks_dir (fun s => s) Checkout.joinpath Checkout.joinpaths
         Checkout.is_absolute (fun p => p) Checkout.with_hooks_path "/work/repo")
  = Ok "/work/repo/.githooks".
Proof.
  assert (git_c Checkout.with_hooks_path "/work/repo" ["config"; "--get"; "core.hooksPath"]
          = Some (".githooks" ++ nl)) as H1 by (vm_compute; reflexivity).
  assert (nonempty (strip (".githooks" ++ nl)) = true) as H2 by (vm_compute; reflexivity).
  exact (proj1 (configured_hooks_path_wins string unit (fun s => s) Checkout.joinpath Checkout.joinpaths
                  Checkout.is_absolute (fun p => p) Checkout.with_hooks_path
                  "/work/repo" (".githooks" ++ nl) H1 H2)).
Defined.

Lemma without_git_install_and_uninstall_agree_witness :
  snd (install_guard (fun s => s) Checkout.joinpath Checkout.joinpaths Checkout.is_absolute
         Checkout.parent Checkout.name (fun p => p) (fun p => p) Checkout.without_git
         tt "demo" "/work/repo")
  = Ok "/work/repo/.git/hooks/pre-commit".
Proof.
  exact (proj1 (without_git_install_and_uninstall_agree string unit (fun s => s) Checkout.joinpath
                  Checkout.joinpaths Checkout.is_absolute Checkout.parent Checkout.name
                  (fun p => p) (fun p => p) Checkout.without_git tt "demo" "/work/repo"
                  (fun _ => eq_refl))).
Defined.

Lemma git_dir_is_the_second_choice_witness :
  snd (_resolve_hooks_dir (fun s => s) Checkout.joinpath Checkout.joinpaths
         Checkout.is_absolute (fun p => p) Checkout.linked_worktree "/work/wt")
  = Ok "/work/repo/.git/worktrees/wt/hooks".
Proof.
  assert (given (option_map strip
                   (git_c Checkout.linked_worktree "/work/wt"
                      ["config"; "--get"; "core.hooksPath"])) = None) as H1
      by (vm_compute; reflexivity).
  assert (git_c Checkout.linked_worktree "/work/wt" ["rev-parse"; "--git-dir"]
          = Some ("/work/repo/.git/worktrees/wt" ++ nl)) as H2 by (vm_compute; reflexivity).
  assert (nonempty (strip ("/work/repo/.git/worktrees/wt" ++ nl)) = true) as H3
      by (vm_compute; reflexivity).
  exact (proj1 (git_dir_is_the_second_choice string unit (fun s => s) Checkout.joinpath
                  Checkout.joinpaths Checkout.is_absolute (fun p => p)
                  Checkout.linked_worktree "/work/wt" _ H1 H2 H3)).
Defined.

(** ** The further properties on examples *)

Lemma staged_paths_of_listing_witness :
  snd (staged_paths Sample.rename_world)
  = Next ["new.txt"; "src/shared.txt"; "old.txt"; "new.txt"; "src/shared.txt"].
Proof.
  assert (git Sample.rename_world NAME_ONLY
          = Some ("new.txt" ++ Scenario.z ++ "src/shared.txt" ++ Scenario.z)) as H1
      by (vm_compute; reflexivity).
  assert (git Sample.rename_world NAME_STATUS
          = Some ("R100" ++ Scenario.z ++ "old.txt" ++ Scenario.z ++ "new.txt" ++ Scenario.z
                  ++ "M" ++ Scenario.z ++ "src/shared.txt" ++ Scenario.z)) as H2
      by (vm_compute; reflexivity).
  assert (nul_fields ("R100" ++ Scenario.z ++ "old.txt" ++ Scenario.z ++ "new.txt"
                      ++ Scenario.z ++ "M" ++ Scenario.z ++ "src/shared.txt" ++ Scenario.z)
          = flat_map entry_parts Sample.rename_listing) as H3 by (vm_compute; reflexivity).
  assert (forallb well_formed Sample.rename_listing = true) as H4
      by (vm_compute; reflexivity).
  exact (proj1 (staged_paths_of_listing Sample.rename_world _ _ Sample.rename_listing
                  H1 H2 H3 H4)).
Defined.

Lemma precommit_conflict_iff_witness :
  In ("src/shared.txt", JStr "B", "src/shared.txt")
     [("src/shared.txt", JStr "B", "src/shared.txt")]
  <-> exists path p,
      ("src/shared.txt", JStr "B", "src/shared.txt")
      = (path, value "agent" Sample.held_by_B_items, p) /\
      In path Scenario.one_path /\
      value "path_pattern" Sample.held_by_B_items = JStr p /\
      nonempty p = true /\
      eq_str (value "agent" Sample.held_by_B_items) "A" = false /\
      expired Concrete.pylib Scenario.t0 (value "expires_ts" Sample.held_by_B_items) = false /\
      (fnmatch Concrete.pylib path p || fnmatch Concrete.pylib p path) = true.
Proof.
  assert (precommit_body Concrete.pylib "A" Scenario.t0 Scenario.one_path
            (JObj Sample.held_by_B_items)
          = Ok [("src/shared.txt", JStr "B", "src/shared.txt")]) as H
      by (vm_compute; reflexivity).
  exact (precommit_conflict_iff Concrete.pylib "A" Scenario.t0 Scenario.one_path
           Sample.held_by_B_items _ H ("src/shared.txt", JStr "B", "src/shared.txt")).
Defined.

Lemma prepush_conflict_iff_witness :
  In ("src/shared.txt", JStr "B", "src/shared.txt")
     [("src/shared.txt", JStr "B", "src/shared.txt")]
  <-> exists path pattern,
      ("src/shared.txt", JStr "B", "src/shared.txt")
      = (path, value "agent" Sample.held_by_B_items, pattern) /\
      In path Scenario.one_path /\
      prepush_pattern (value "path_pattern" Sample.held_by_B_items) = Ok pattern /\
      nonempty pattern = true /\
      eq_str (value "agent" Sample.held_by_B_items) "A" = false /\
      truthy match assoc "exclusive" Sample.held_by_B_items with
             | Some v => v
             | None => JBool true
             end = true /\
      expired Concrete.pylib Scenario.t0 (value "expires_ts" Sample.held_by_B_items) = false /\
      prepush_match Concrete.pylib path pattern = true.
Proof.
  assert (prepush_body Concrete.pylib "A" Scenario.t0 Scenario.one_path
            (JObj Sample.held_by_B_items)
          = Ok [("src/shared.txt", JStr "B", "src/shared.txt")]) as H
      by (vm_compute; reflexivity).
  exact (prepush_conflict_iff Concrete.pylib "A" Scenario.t0 Scenario.one_path
           Sample.held_by_B_items _ H ("src/shared.txt", JStr "B", "src/shared.txt")).
Defined.

Lemma non_object_record_stops_the_hook_witness :
  outcome_of (prepush_script Concrete.pylib Sample.list_world) = Uncaught AttributeError.
Proof.
  assert (gate_on Sample.list_world = true) as Hg by (vm_compute; reflexivity).
  assert (bypass_on Sample.list_world = false) as Hb by (vm_compute; reflexivity).
  assert (AGENT_NAME Sample.list_world = Some "A") as Ha by (vm_compute; reflexivity).
  assert (reservations Sample.list_world
          = Some [("notes.txt", None); ("list.json", Some (JArr []))]) as Hr
      by reflexivity.
  assert (load_file_reservations
            (filter (fun e => endswith ".json" (fst e))
               [("notes.txt", None); ("list.json", Some (JArr []))])
          = [JArr []]) as Hl by (vm_compute; reflexivity).
  exact (proj1 (non_object_record_stops_the_hook Concrete.pylib Sample.list_world "A"
                  _ (JArr []) [] Hg Hb Ha Hr Hl eq_refl)).
Defined.

Lemma every_ref_update_is_inspected_witness :
  is_token "1111" = true /\
  In (GitRun (REV_LIST "1111" (remote_name Scenario.scenario_A)))
     (fst (collect_commits Scenario.scenario_A (read_tuples (stdin Scenario.scenario_A)))).
Proof.
  assert (In ("refs/heads/main", "1111", "refs/heads/main", "2222")
             (read_tuples (stdin Scenario.scenario_A))) as H
      by (vm_compute; now left).
  destruct (every_ref_update_is_inspected Scenario.scenario_A
              "refs/heads/main" "1111" "refs/heads/main" "2222" H)
    as (_ & H1 & _ & _ & H4).
  split; assumption.
Defined.

Lemma blocked_iff_conflict_reported_witness :
  outcome_of (precommit_script Concrete.pylib Scenario.scenario_A) = Exit 1
  <-> ADVISORY Scenario.scenario_A = false /\
      reported (trace_of (precommit_script Concrete.pylib Scenario.scenario_A)) <> [].
Proof.
  assert (AGENT_NAME Scenario.scenario_A = Some "A") as Ha by (vm_compute; reflexivity).
  exact (proj1 (blocked_iff_conflict_reported Concrete.pylib Scenario.scenario_A "A" Ha)).
Defined.

Lemma no_reservation_directory_is_a_no_op_witness :
  precommit_script Concrete.pylib (with_reservations None Scenario.scenario_A)
  = ([DirExists], Exit 0).
Proof.
  assert (gate_on (with_reservations None Scenario.scenario_A) = true) as Hg
      by (vm_compute; reflexivity).
  assert (bypass_on (with_reservations None Scenario.scenario_A) = false) as Hb
      by (vm_compute; reflexivity).
  assert (AGENT_NAME (with_reservations None Scenario.scenario_A) = Some "A") as Ha
      by (vm_compute; reflexivity).
  exact (proj1 (no_reservation_directory_is_a_no_op Concrete.pylib
                  (with_reservations None Scenario.scenario_A) "A" Hg Hb Ha eq_refl)).
Defined.

Lemma scan_is_load_then_evaluate_witness :
  snd (scan (precommit_body Concrete.pylib "A" Scenario.t0 Scenario.one_path)
         [("notes.json", None); ("lock.json", Some Scenario.held_by_B);
          ("own.json", Some Scenario.shared_B)] [])
  = Next (flat_map (fun r => match precommit_body Concrete.pylib "A" Scenario.t0
                                     Scenario.one_path r with
                             | Ok cs => cs
                             | Raise _ => []
                             end)
                   [Scenario.held_by_B; Scenario.shared_B]).
Proof.
  refine (proj2 (scan_is_load_then_evaluate
                   (precommit_body Concrete.pylib "A" Scenario.t0 Scenario.one_path)
                   [("notes.json", None); ("lock.json", Some Scenario.held_by_B);
                    ("own.json", Some Scenario.shared_B)] _)).
  repeat constructor; eexists; vm_compute; reflexivity.
Defined.
